(** * ICD-10 code mapping: a shallow embedding of [backend/icd10_mapper.py]

    The development follows the script function by function:
    [setup_icd10_data], [create_embedding_index], [map_diagnoses],
    [initialize_system] and [main].

    Modelling conventions.
    - A Python [str] is a [string]; its characters stand for the code
      points below 256, so that [isspace] covers the Latin-1 white space.
    - A Python [float] (and a NumPy [float32]) is the rational it denotes,
      a [Q].  A comparison of a [float32] with a Python float literal is
      made in [float32], as NumPy 2 does: the literal is rounded first.
    - A Python exception is an [exn] (class name and message); a call that
      may raise returns a [result].
    - The sentence encoder, the fuzzy scorer and the vector index are
      capabilities of third-party libraries: they are parameters of the
      sections below, and module [Reference] gives concrete instances for
      evaluating the model. *)

From Stdlib Require Import String Ascii List Bool Arith ZArith NArith QArith Lia.
From Stdlib Require Import Qabs Lqa.
Import ListNotations.

Local Open Scope string_scope.
Local Open Scope list_scope.

(* ===================================================================== *)
(** ** Python strings *)
(* ===================================================================== *)

Module PyStr.

(** [str.isspace] on one character, for the code points below 256. *)
Definition isspace (c : ascii) : bool :=
  let n := N_of_ascii c in
  (((9 <=? n) && (n <=? 13)) || ((28 <=? n) && (n <=? 32))
   || (n =? 133) || (n =? 160))%N.

Fixpoint lstrip (s : string) : string :=
  match s with
  | EmptyString => EmptyString
  | String c s' => if isspace c then lstrip s' else s
  end.

Fixpoint rstrip (s : string) : string :=
  match s with
  | EmptyString => EmptyString
  | String c s' =>
      match rstrip s' with
      | EmptyString => if isspace c then EmptyString else String c EmptyString
      | r => String c r
      end
  end.

(** [s.strip()] *)
Definition strip (s : string) : string := rstrip (lstrip s).

(** The longest prefix without white space, and what follows it. *)
Fixpoint span_word (s : string) : string * string :=
  match s with
  | EmptyString => (EmptyString, EmptyString)
  | String c s' =>
      if isspace c then (EmptyString, s)
      else let (w, rest) := span_word s' in (String c w, rest)
  end.

(** [s.split(None, maxsplit)]: runs of white space separate the words;
    after [maxsplit] words the remainder, without its leading white
    space, is the last item when it is not empty. *)
Fixpoint split (maxsplit : nat) (s : string) : list string :=
  match lstrip s with
  | EmptyString => []
  | r =>
      match maxsplit with
      | O => [r]
      | S m => let (w, rest) := span_word r in w :: split m rest
      end
  end.

(** [s.split()]: no more than [length s] words can be found. *)
Definition split_all (s : string) : list string := split (String.length s) s.

(** [sep.join(items)] *)
Fixpoint join (sep : string) (items : list string) : string :=
  match items with
  | [] => EmptyString
  | [x] => x
  | x :: rest => (x ++ sep ++ join sep rest)%string
  end.

Definition has_space (s : string) : bool :=
  existsb isspace (list_ascii_of_string s).

End PyStr.

(* ===================================================================== *)
(** ** Step 1: [setup_icd10_data], the catalog *)
(* ===================================================================== *)

(** One dictionary appended to [entries]. *)
Record CodeEntry := mkEntry {
  code : string;
  short_description : string;
  long_description : string
}.

(** The body of the loop over [lines]: the entry a line contributes. *)
Definition entry_of_line (line : string) : option CodeEntry :=
  let parts := PyStr.split 4 (PyStr.strip line) in
  if (List.length parts =? 5)%nat then
    match parts with
    | [_; code; _; short_desc; long_desc] =>
        Some (mkEntry code (PyStr.strip short_desc) (PyStr.strip long_desc))
    | _ => None
    end
  else None.

(** [entries = []; for line in lines: ... entries.append(...)] *)
Definition parse_entries (lines : list string) : list CodeEntry :=
  fold_left
    (fun entries line =>
       match entry_of_line line with
       | Some e => entries ++ [e]
       | None => entries
       end)
    lines [].

(** [f"ICD Code: {e['code']}. Description: {e['long_description']}"] *)
Definition chunk_text (e : CodeEntry) : string :=
  ("ICD Code: " ++ code e ++ ". Description: " ++ long_description e)%string.

Definition chunks_of (entries : list CodeEntry) : list string :=
  map chunk_text entries.
Definition codes_of (entries : list CodeEntry) : list string :=
  map code entries.
Definition descriptions_of (entries : list CodeEntry) : list string :=
  map long_description entries.

(** *** The shape of a line that gives an entry *)

(** The fields of a line, described without [split] and [strip]. *)
Module Fields.

(** Nothing but white space (possibly nothing at all). *)
Definition all_space (s : string) : bool :=
  forallb PyStr.isspace (list_ascii_of_string s).

(** A separator: white space, at least one character. *)
Definition is_gap (s : string) : bool :=
  negb (String.eqb s EmptyString) && all_space s.

(** A token: at least one character, no white space. *)
Definition is_word (s : string) : bool :=
  negb (String.eqb s EmptyString) && negb (PyStr.has_space s).

Definition first_char (s : string) : option ascii :=
  match s with
  | EmptyString => None
  | String c _ => Some c
  end.

Fixpoint last_char (s : string) : option ascii :=
  match s with
  | EmptyString => None
  | String c EmptyString => Some c
  | String _ s' => last_char s'
  end.

Definition nonspace (c : option ascii) : bool :=
  match c with
  | Some c => negb (PyStr.isspace c)
  | None => false
  end.

(** The rest of a line: it begins and ends with a character that is not
    white space, and may hold white space in between. *)
Definition is_trimmed (s : string) : bool :=
  nonspace (first_char s) && nonspace (last_char s).

(** Empty, or beginning with white space: where a word stops. *)
Definition starts_space (s : string) : bool :=
  match s with
  | EmptyString => true
  | String c _ => PyStr.isspace c
  end.

(** [line] is made of five fields: optional white space, four words each
    followed by a separator, then the rest of the line up to optional
    trailing white space.  The 2nd word, the 4th word and the rest are
    the fields of [e]. *)
Definition five_fields (line : string) (e : CodeEntry) : Prop :=
  exists ws0 t1 g1 g2 t3 g3 g4 ws5,
    line = (ws0 ++ t1 ++ g1 ++ code e ++ g2 ++ t3 ++ g3
            ++ short_description e ++ g4 ++ long_description e ++ ws5)%string
    /\ all_space ws0 = true /\ all_space ws5 = true
    /\ is_gap g1 = true /\ is_gap g2 = true
    /\ is_gap g3 = true /\ is_gap g4 = true
    /\ is_word t1 = true /\ is_word (code e) = true
    /\ is_word t3 = true /\ is_word (short_description e) = true
    /\ is_trimmed (long_description e) = true.

End Fields.


(* ===================================================================== *)
(** ** Exceptions, list indexing, number formatting *)
(* ===================================================================== *)

(** An instance of a subclass of [Exception]: its class and [str(e)]. *)
Record exn := Exception { exn_class : string; exn_str : string }.

Inductive result (A : Type) : Type :=
| Ok (a : A)
| Raise (e : exn).
Arguments Ok {A} a.
Arguments Raise {A} e.

Definition bind {A B} (c : result A) (k : A -> result B) : result B :=
  match c with
  | Ok a => k a
  | Raise e => Raise e
  end.

Declare Scope py_scope.
Delimit Scope py_scope with py.
Notation "x <- c ;; k" := (bind c (fun x => k))
  (at level 61, c at next level, right associativity) : py_scope.

Definition list_IndexError : exn :=
  Exception "IndexError" "list index out of range".
Definition FileNotFoundError (path : string) : exn :=
  Exception "FileNotFoundError"
    ("[Errno 2] No such file or directory: '" ++ path ++ "'").
Definition numpy_IndexError : exn :=
  Exception "IndexError" "index 0 is out of bounds for axis 0 with size 0".
Definition AssertionError : exn := Exception "AssertionError" EmptyString.

(** [l[i]] on a Python list: a negative index counts from the end. *)
Definition getitem {A} (l : list A) (i : Z) : result A :=
  let n := Z.of_nat (List.length l) in
  let j := if (i <? 0)%Z then (i + n)%Z else i in
  if ((j <? 0) || (n <=? j))%Z then Raise list_IndexError
  else match nth_error l (Z.to_nat j) with
       | Some x => Ok x
       | None => Raise list_IndexError
       end.

(** [a[0]] on the first axis of a NumPy array. *)
Definition row0 {A} (a : list A) : result A :=
  match a with
  | [] => Raise numpy_IndexError
  | r :: _ => Ok r
  end.

Definition Qlt_bool (a b : Q) : bool := negb (Qle_bool b a).

Module Fmt.

Definition digit (n : N) : ascii := ascii_of_N (48 + n).

(** Decimal digits of [n], most significant first; [fuel] bounds their
    number. *)
Fixpoint digits (fuel : nat) (n : N) (acc : string) : string :=
  match fuel with
  | O => acc
  | S f =>
      let acc' := String (digit (n mod 10)) acc in
      if (n <? 10)%N then acc' else digits f (n / 10) acc'
  end.

Definition str_N (n : N) : string :=
  digits (S (N.to_nat (N.log2 n))) n EmptyString.

(** The integer nearest to [q >= 0], ties to even. *)
Definition round_half_even (q : Q) : Z :=
  let n := Qnum q in
  let d := Zpos (Qden q) in
  let fl := (n / d)%Z in
  match (2 * (n mod d) ?= d)%Z with
  | Lt => fl
  | Gt => (fl + 1)%Z
  | Eq => if Z.even fl then fl else (fl + 1)%Z
  end.

(** [format(x, ".3f")] *)
Definition format_3f (x : Q) : string :=
  let m := Z.to_N (round_half_even (Qabs x * 1000)) in
  let frac := (m mod 1000)%N in
  ((if Qlt_bool x 0 then "-" else EmptyString) ++ str_N (m / 1000) ++ "."
   ++ String (digit (frac / 100))
        (String (digit ((frac / 10) mod 10))
           (String (digit (frac mod 10)) EmptyString)))%string.

End Fmt.

(* ===================================================================== *)
(** ** The external capabilities *)
(* ===================================================================== *)

Definition vector := list Q.

(** A loaded [SentenceTransformer]: [encode] maps texts to vectors. *)
Record Embedder := { encode : list string -> result (list vector) }.

(** A [faiss.IndexFlatL2]: its dimension and the vectors added so far. *)
Record IndexFlatL2 := { dim : nat; xb : list vector }.

(** [index.add(x)]: the rows of [x] must have the dimension of the index. *)
Definition index_add (index : IndexFlatL2) (x : list vector)
  : result IndexFlatL2 :=
  if forallb (fun v => (List.length v =? dim index)%nat) x
  then Ok {| dim := dim index; xb := xb index ++ x |}
  else Raise AssertionError.

(** What [index.search(x, k=3)] returns: one row of three distances and
    one row of three positions per query. *)
Definition Distances := list (Q * Q * Q).
Definition Labels := list (Z * Z * Z).

Definition col0 {A} (r : A * A * A) : A := let '(a, _, _) := r in a.
Definition col1 {A} (r : A * A * A) : A := let '(_, b, _) := r in b.
Definition col2 {A} (r : A * A * A) : A := let '(_, _, c) := r in c.

(* ===================================================================== *)
(** ** [rapidfuzz.process.extractOne] *)
(* ===================================================================== *)

Section Rapidfuzz.

(** The scorer, [fuzz.token_sort_ratio], called without a cutoff. *)
Variable scorer : string -> string -> Q.

(** The scorer called with [score_cutoff]: a score below the cutoff is
    reported as [0]. *)
Definition scorer_with_cutoff (query choice : string) (score_cutoff : Q) : Q :=
  let s := scorer query choice in
  if Qle_bool score_cutoff s then s else 0.

Definition enumerate {A} (l : list A) : list (nat * A) :=
  combine (seq 0 (List.length l)) l.

(** The loop of [extractOne] for a scorer whose best score is [100]:
    a choice replaces the result when its score reaches the cutoff and
    beats the result so far; the cutoff rises to the best score; the
    scan stops at a perfect score. *)
Fixpoint extractOne_loop (query : string) (choices : list (nat * string))
    (score_cutoff : Q) (res : option (string * Q * nat))
  : option (string * Q * nat) :=
  match choices with
  | [] => res
  | (key, choice) :: rest =>
      let score := scorer_with_cutoff query choice score_cutoff in
      let better :=
        Qle_bool score_cutoff score
        && match res with
           | None => true
           | Some (_, best, _) => Qlt_bool best score
           end in
      let score_cutoff' := if better then score else score_cutoff in
      let res' := if better then Some (choice, score, key) else res in
      if Qeq_bool score 100 then res'
      else extractOne_loop query rest score_cutoff' res'
  end.

(** [process.extractOne(query, choices, scorer=..., score_cutoff=...,
    processor=None)] *)
Definition extractOne (query : string) (choices : list string)
    (score_cutoff : Q) : option (string * Q * nat) :=
  extractOne_loop query (enumerate choices) score_cutoff None.

(** The state of the loop, for the proofs: the cutoff is the initial
    one, [cutoff0], until a result is found, then the score of the
    result. *)
Definition loop_inv (cutoff0 score_cutoff : Q)
    (res : option (string * Q * nat)) : Prop :=
  match res with
  | None => score_cutoff = cutoff0
  | Some (_, best, _) => score_cutoff = best /\ cutoff0 <= best
  end.

(** What the loop returns from a state: nothing when no choice reaches
    the cutoff; otherwise the result it started with, which no choice
    beats, or the first choice whose score is the largest. *)
Definition loop_post (query : string) (cutoff0 : Q)
    (cs : list (nat * string)) (res final : option (string * Q * nat))
  : Prop :=
  let sc := fun kc : nat * string => scorer query (snd kc) in
  match final with
  | None => res = None /\ Forall (fun kc => sc kc < cutoff0) cs
  | Some (c, s, k) =>
      (res = Some (c, s, k) /\ Forall (fun kc => sc kc <= s) cs)
      \/ (exists l1 l2,
             cs = l1 ++ (k, c) :: l2 /\ s = scorer query c /\ cutoff0 <= s
             /\ Forall (fun kc => sc kc < s) l1
             /\ Forall (fun kc => sc kc <= s) l2
             /\ match res with
                | Some (_, best, _) => best < s
                | None => True
                end)
  end.

(** The score of a choice that does not replace the result. *)
Definition not_better (cutoff0 : Q) (res : option (string * Q * nat))
    (x : Q) : Prop :=
  match res with
  | None => x < cutoff0
  | Some (_, best, _) => x <= best
  end.

End Rapidfuzz.

(* ===================================================================== *)
(** ** Step 3: [map_diagnoses], the loop over the diagnoses *)
(* ===================================================================== *)

(** One dictionary appended to [results]. *)
Record MatchResult := mkResult {
  original_diagnosis : string;
  matched_icd_code : option string;
  matched_description : option string;
  confidence_level : string;
  justification : string;
  alternative_codes : string
}.

(** What the first [try] block of [map_diagnoses] binds. *)
Record Assets := mkAssets {
  icd_chunks : list string;
  icd_codes : list string;
  icd_descs : list string;
  index : IndexFlatL2;
  embedder : Embedder
}.

(** The literal [0.8] as it enters [D[0][0] > 0.8]: [D[0][0]] is a
    [float32], so NumPy converts [0.8] to [float32] before comparing, and
    the [float32] nearest to 0.8 is 13421773/2^24 (0.800000011920929). *)
Definition float32_0_8 : Q := 13421773 # 16777216.

(** Every [float32] is below 1/2 or a multiple of 2^-24. *)
Definition on_float32_grid (d : Q) : Prop :=
  d < 1 # 2 \/ exists m : Z, d == m # 16777216.

Section Matcher.

(** [fuzz.token_sort_ratio] *)
Variable token_sort_ratio : string -> string -> Q.
(** [index.search(x, k=3)] *)
Variable faiss_search :
  IndexFlatL2 -> list vector -> result (Distances * Labels).
(** [str(score)], the shortest decimal text of a float. *)
Variable float_str : Q -> string.

Local Open Scope py_scope.

(** Step 1, the branch taken when [keyword_result] is not [None]. *)
Definition keyword_match (a : Assets) (diag : string)
    (keyword_result : string * Q * nat) : result MatchResult :=
  let '(_, score, idx) := keyword_result in
  code <- getitem (icd_codes a) (Z.of_nat idx) ;;
  let confidence := if Qle_bool 95 score then "High" else "Medium" in
  let justification :=
    ("Keyword match with score " ++ float_str score
     ++ "/100. Confidence: " ++ confidence
     ++ ". Found similar phrase in ICD description.")%string in
  let alternatives := EmptyString in
  desc <- getitem (icd_descs a) (Z.of_nat idx) ;;
  Ok (mkResult diag (Some code) (Some desc) confidence justification
        alternatives).

(** Step 2, the [else] branch. *)
Definition semantic_match (a : Assets) (diag : string) : result MatchResult :=
  emb <- encode (embedder a) [diag] ;;
  DI <- faiss_search (index a) emb ;;
  let '(D, I_) := DI in
  I0 <- row0 I_ ;;
  let idx := col0 I0 in
  (* alt = [(icd_codes[I[0][j]], icd_descs[I[0][j]], float(D[0][j]))
            for j in range(3)] *)
  alt0c <- getitem (icd_codes a) (col0 I0) ;;
  alt0d <- getitem (icd_descs a) (col0 I0) ;;
  D0 <- row0 D ;;
  alt1c <- getitem (icd_codes a) (col1 I0) ;;
  alt1d <- getitem (icd_descs a) (col1 I0) ;;
  alt2c <- getitem (icd_codes a) (col2 I0) ;;
  alt2d <- getitem (icd_descs a) (col2 I0) ;;
  let alt := [(alt0c, alt0d, col0 D0); (alt1c, alt1d, col1 D0);
              (alt2c, alt2d, col2 D0)] in
  code <- getitem (icd_codes a) idx ;;
  let confidence :=
    if Qlt_bool float32_0_8 (col0 D0) then "Low" else "Medium" in
  let justification :=
    ("Semantic match using Sentence-BERT. Distance: "
     ++ Fmt.format_3f (col0 D0) ++ ". Confidence: " ++ confidence
     ++ ". No direct keyword match found above threshold.")%string in
  let alternatives :=
    (alt1c ++ " (distance: " ++ Fmt.format_3f (col1 D0) ++ "), "
     ++ alt2c ++ " (distance: " ++ Fmt.format_3f (col2 D0) ++ ")")%string in
  desc <- getitem (icd_descs a) idx ;;
  Ok (mkResult diag (Some code) (Some desc) confidence justification
        alternatives).

(** The body of the [try] block for one diagnosis. *)
Definition match_diagnosis (a : Assets) (diag : string) : result MatchResult :=
  match extractOne token_sort_ratio diag (icd_descs a) 85 with
  | Some keyword_result => keyword_match a diag keyword_result
  | None => semantic_match a diag
  end.

(** The dictionary appended by the [except] clause. *)
Definition error_result (diag : string) (e : exn) : MatchResult :=
  mkResult diag None None "Error"
    ("Error processing diagnosis: " ++ exn_str e)%string EmptyString.

(** What [try ... except Exception as e] leaves for one diagnosis. *)
Definition item_result (a : Assets) (diag : string) : MatchResult :=
  match match_diagnosis a diag with
  | Ok r => r
  | Raise e => error_result diag e
  end.

(** One turn of [for diag in diagnoses_list]. *)
Definition loop_body (a : Assets) (results : list MatchResult)
    (diag : string) : list MatchResult :=
  match match_diagnosis a diag with
  | Ok r => results ++ [r]                       (* results.append({...}) *)
  | Raise e => results ++ [error_result diag e]  (* except Exception as e *)
  end.

(** [results = []; for diag in diagnoses_list: ...; return results] *)
Definition map_loop (a : Assets) (diagnoses_list : list string)
  : list MatchResult :=
  fold_left (loop_body a) diagnoses_list [].

End Matcher.

(** The contract of a search: the distances of a row are in ascending
    order. *)
Definition ascending_search
    (faiss_search : IndexFlatL2 -> list vector -> result (Distances * Labels))
  : Prop :=
  forall index x D I_,
    faiss_search index x = Ok (D, I_) ->
    Forall (fun row => col0 row <= col1 row /\ col1 row <= col2 row) D.

(* ===================================================================== *)
(** ** The files and the standard output *)
(* ===================================================================== *)

(** A file of the working directory, as reading it behaves: absent,
    present but failing to load with [e] (unreadable, not valid JSON),
    or holding a value. *)
Inductive file (A : Type) : Type :=
| Missing
| Unreadable (e : exn)
| Holds (content : A).
Arguments Missing {A}.
Arguments Unreadable {A} e.
Arguments Holds {A} content.

(** The dictionary [output] that [main] prints. *)
Record BatchReport := mkReport {
  total_processed : nat;
  results : list MatchResult
}.

Inductive printed : Type :=
| Line (s : string)
| Json (output : BatchReport).

Record World := mkWorld {
  codes_txt : file (list string);          (* ./codes.txt, by lines *)
  icd_chunks_3 : file (list string);       (* icd10_kb/icd_chunks_3.json *)
  icd_codes_3 : file (list string);        (* icd10_kb/icd_codes_3.json *)
  icd_descriptions_3 : file (list string); (* icd10_kb/icd_descriptions_3.json *)
  icd10_index_3 : file IndexFlatL2;        (* icd10_index_3.faiss *)
  stdout : list printed
}.

(** How a call ends: it returns, it raises an [Exception], or
    [sys.exit(status)] was called. *)
Inductive outcome (A : Type) : Type :=
| Returns (a : A)
| Raises (e : exn)
| Exits (status : Z).
Arguments Returns {A} a.
Arguments Raises {A} e.
Arguments Exits {A} status.

Definition IO (A : Type) : Type := World -> outcome A * World.

Module IOMonad.

Definition ret {A} (a : A) : IO A := fun w => (Returns a, w).

Definition bind {A B} (c : IO A) (k : A -> IO B) : IO B :=
  fun w =>
    match c w with
    | (Returns a, w') => k a w'
    | (Raises e, w') => (Raises e, w')
    | (Exits n, w') => (Exits n, w')
    end.

Definition lift {A} (r : result A) : IO A :=
  fun w => match r with Ok a => (Returns a, w) | Raise e => (Raises e, w) end.

Definition sys_exit {A} (status : Z) : IO A := fun w => (Exits status, w).

Definition get : IO World := fun w => (Returns w, w).

Definition emit (p : printed) : IO unit :=
  fun w =>
    (Returns tt,
     mkWorld (codes_txt w) (icd_chunks_3 w) (icd_codes_3 w)
       (icd_descriptions_3 w) (icd10_index_3 w) (stdout w ++ [p])).

Definition print (s : string) : IO unit := emit (Line s).

(** [os.makedirs] and the [json.dump] of the three lists into
    [icd10_kb/].  The writes are taken to succeed: a directory that
    cannot be written to is outside of what a [World] describes. *)
Definition write_kb (chunks codes descriptions : list string) : IO unit :=
  fun w =>
    (Returns tt,
     mkWorld (codes_txt w) (Holds chunks) (Holds codes) (Holds descriptions)
       (icd10_index_3 w) (stdout w)).

(** [faiss.write_index(index, "icd10_index_3.faiss")], taken to succeed
    as well. *)
Definition write_index (index : IndexFlatL2) : IO unit :=
  fun w =>
    (Returns tt,
     mkWorld (codes_txt w) (icd_chunks_3 w) (icd_codes_3 w)
       (icd_descriptions_3 w) (Holds index) (stdout w)).

End IOMonad.

Declare Scope io_scope.
Delimit Scope io_scope with io.
Notation "x <- c ;; k" := (IOMonad.bind c (fun x => k))
  (at level 61, c at next level, right associativity) : io_scope.
Notation "c ;;; k" := (IOMonad.bind c (fun _ => k))
  (at level 61, right associativity) : io_scope.

(** [with open(path, "r") as f: json.load(f)] (or [f.readlines()]). *)
Definition open_read {A} (path : string) (f : file A) : result A :=
  match f with
  | Missing => Raise (FileNotFoundError path)
  | Unreadable e => Raise e
  | Holds content => Ok content
  end.

(** [faiss.read_index(path)]; the text of the library's message for an
    absent file is abridged. *)
Definition read_index (path : string) (f : file IndexFlatL2)
  : result IndexFlatL2 :=
  match f with
  | Missing =>
      Raise (Exception "RuntimeError"
               ("could not open " ++ path
                ++ " for reading: No such file or directory")%string)
  | Unreadable e => Raise e
  | Holds content => Ok content
  end.

(** [os.path.exists(path)] *)
Definition exists_ {A} (f : file A) : bool :=
  match f with
  | Missing => false
  | _ => true
  end.

Definition is_FileNotFoundError (e : exn) : bool :=
  (exn_class e =? "FileNotFoundError")%string.

(** [s] between double quotes. *)
Definition quoted (s : string) : string :=
  let dq := String (ascii_of_N 34) EmptyString in (dq ++ s ++ dq)%string.

Definition EMBEDDING_MODEL_NAME : string := "all-MiniLM-L6-v2".

(** The argument of [map_diagnoses]: a [str] or a list of them. *)
Inductive diagnoses_input : Type :=
| a_str (s : string)
| a_list (l : list string).

(* ===================================================================== *)
(** ** The script: steps 1 to 3, [initialize_system] and [main] *)
(* ===================================================================== *)

Section Script.

(** [SentenceTransformer(name)]: loading (or downloading) a model. *)
Variable SentenceTransformer : string -> result Embedder.
Variable token_sort_ratio : string -> string -> Q.
Variable faiss_search :
  IndexFlatL2 -> list vector -> result (Distances * Labels).
Variable float_str : Q -> string.

Import IOMonad.
Local Open Scope io_scope.

(** Writing the knowledge-base files is taken to succeed. *)
Definition setup_icd10_data : IO bool :=
  w <- get ;;
  match open_read "./codes.txt" (codes_txt w) with
  | Raise e =>
      if is_FileNotFoundError e then
        print "Error: codes.txt file not found. Please ensure it exists in the current directory." ;;;
        ret false
      else lift (Raise e)
  | Ok lines =>
      let entries := parse_entries lines in
      let chunks := chunks_of entries in
      let codes := codes_of entries in
      let descriptions := descriptions_of entries in
      write_kb chunks codes descriptions ;;;
      print "ICD-10 metadata processed." ;;;
      ret true
  end.

Definition create_embedding_index : IO bool :=
  w <- get ;;
  match open_read "icd10_kb/icd_chunks_3.json" (icd_chunks_3 w) with
  | Raise e =>
      if is_FileNotFoundError e then
        print "Error: ICD chunks file not found. Run setup_icd10_data() first." ;;;
        ret false
      else lift (Raise e)
  | Ok chunks =>
      print "Downloading Sentence-BERT model (this may take several minutes on first run)..." ;;;
      embedder <- lift (SentenceTransformer EMBEDDING_MODEL_NAME) ;;
      print "Model loaded successfully. Creating embeddings..." ;;;
      embeddings <- lift (encode embedder chunks) ;;
      embeddings_0 <- lift (row0 embeddings) ;;
      let dim := List.length embeddings_0 in
      let index := {| dim := dim; xb := [] |} in
      index <- lift (index_add index embeddings) ;;
      write_index index ;;;
      print "FAISS index created." ;;;
      ret true
  end.

(** The first [try] block of [map_diagnoses]. *)
Definition load_assets (w : World) : result Assets :=
  (icd_chunks <- open_read "icd10_kb/icd_chunks_3.json" (icd_chunks_3 w) ;;
   icd_codes <- open_read "icd10_kb/icd_codes_3.json" (icd_codes_3 w) ;;
   icd_descs <- open_read "icd10_kb/icd_descriptions_3.json"
                  (icd_descriptions_3 w) ;;
   index <- read_index "icd10_index_3.faiss" (icd10_index_3 w) ;;
   embedder <- SentenceTransformer EMBEDDING_MODEL_NAME ;;
   Ok (mkAssets icd_chunks icd_codes icd_descs index embedder))%py.

(** [if isinstance(diagnoses_input, str): ... else: ...] *)
Definition diagnoses_list_of (diagnoses_input : diagnoses_input)
  : list string :=
  match diagnoses_input with
  | a_str s => [s]
  | a_list l => l
  end.

Definition map_diagnoses (diagnoses_input : diagnoses_input)
  : IO (list MatchResult) :=
  w <- get ;;
  match load_assets w with
  | Raise e =>
      print ("Error loading assets: " ++ exn_str e)%string ;;;
      ret []
  | Ok assets =>
      let diagnoses_list := diagnoses_list_of diagnoses_input in
      ret (map_loop token_sort_ratio faiss_search float_str assets
             diagnoses_list)
  end.

Definition initialize_system : IO bool :=
  print "Initializing ICD-10 mapping system..." ;;;
  w <- get ;;
  ok1 <- (if negb (exists_ (icd_codes_3 w)) then
            print "Setting up ICD-10 data..." ;;; setup_icd10_data
          else ret true) ;;
  if negb ok1 then ret false else
  w <- get ;;
  ok2 <- (if negb (exists_ (icd10_index_3 w)) then
            print "Creating embedding index..." ;;; create_embedding_index
          else ret true) ;;
  if negb ok2 then ret false else
  print "System initialized successfully!" ;;;
  ret true.

(** [main], given [sys.argv]. *)
Definition main (argv : list string) : IO unit :=
  (if (List.length argv <? 2)%nat then
     print ("Usage: python icd10_mapper.py " ++ quoted "diagnosis text"
            ++ " [" ++ quoted "diagnosis2" ++ "] ...")%string ;;;
     print ("Example: python icd10_mapper.py "
            ++ quoted "acute myocardial infarction")%string ;;;
     sys_exit 1
   else ret tt) ;;;
  ok <- initialize_system ;;
  (if negb ok then sys_exit 1 else ret tt) ;;;
  let diagnoses := tl argv in
  results <- map_diagnoses (a_list diagnoses) ;;
  let output := mkReport (List.length diagnoses) results in
  emit (Json output).

(** The exit status of the process that runs [main]: [0] when [main]
    returns, the argument of [sys.exit], [1] after an uncaught
    exception. *)
Definition exit_status (argv : list string) (w : World) : Z :=
  match fst (main argv w) with
  | Returns _ => 0
  | Exits n => n
  | Raises _ => 1
  end.

End Script.

(* ===================================================================== *)
(** ** The specification's wording, where it is compared with the code *)
(* ===================================================================== *)

(** The chunk text as the specification words it:
    ["Code: {code}. Description: {long_description}"]. *)
Definition spec_chunk_text (e : CodeEntry) : string :=
  ("Code: " ++ code e ++ ". Description: " ++ long_description e)%string.

(** The specification's reading of a single diagnosis string: the
    batch-matching component does not turn it into a one-element batch,
    its caller does. *)
Definition left_to_caller (component : diagnoses_input -> list string)
    (s : string) : Prop :=
  component (a_str s) <> [s].

(** The confidence of a semantic match as the specification words it:
    [Low] when the nearest distance is above 0.8, else [Medium]. *)
Definition spec_semantic_confidence (d : Q) : string :=
  if Qlt_bool (8 # 10) d then "Low" else "Medium".

(** The specification's failure of an index built from no chunk text. *)
Definition raises_EmptyCatalogError {A} (o : outcome A) : Prop :=
  exists msg, o = Raises (Exception "EmptyCatalogError" msg).

Definition holds {A} (f : file A) : bool :=
  match f with
  | Holds _ => true
  | _ => false
  end.

(** One of the five loads of [map_diagnoses] raises. *)
Definition loading_raises (SentenceTransformer : string -> result Embedder)
    (w : World) : Prop :=
  holds (icd_chunks_3 w) = false \/ holds (icd_codes_3 w) = false
  \/ holds (icd_descriptions_3 w) = false \/ holds (icd10_index_3 w) = false
  \/ exists e, SentenceTransformer EMBEDDING_MODEL_NAME = Raise e.

(* ===================================================================== *)
(** ** Observations on a run *)
(* ===================================================================== *)

(** The five files of a world, without the standard output. *)
Definition files (w : World)
  : file (list string) * file (list string) * file (list string)
    * file (list string) * file IndexFlatL2 :=
  (codes_txt w, icd_chunks_3 w, icd_codes_3 w, icd_descriptions_3 w,
   icd10_index_3 w).

Definition is_json (p : printed) : bool :=
  match p with
  | Json _ => true
  | Line _ => false
  end.

(** The number of reports on the standard output. *)
Definition count_json (out : list printed) : nat :=
  List.length (filter is_json out).

(** A command keeps a relation between the world it starts from and the
    world it leaves, however it ends. *)
Definition preserves {A} (R : World -> World -> Prop) (c : IO A) : Prop :=
  forall w, R w (snd (c w)).

Definition same_codes_txt (w w' : World) : Prop := codes_txt w' = codes_txt w.
Definition same_files (w w' : World) : Prop := files w' = files w.
(** The catalog file and the three lists are the same. *)
Definition same_kb (w w' : World) : Prop :=
  codes_txt w' = codes_txt w /\ icd_chunks_3 w' = icd_chunks_3 w
  /\ icd_codes_3 w' = icd_codes_3 w
  /\ icd_descriptions_3 w' = icd_descriptions_3 w.
Definition same_reports (w w' : World) : Prop :=
  count_json (stdout w') = count_json (stdout w).
(** The standard output only grows. *)
Definition output_grows (w w' : World) : Prop :=
  exists out, stdout w' = stdout w ++ out.

(** The rows of an array have the same length [d]. *)
Definition uniform (d : nat) (x : list vector) : bool :=
  forallb (fun v => (List.length v =? d)%nat) x.

(** A command prints one report when it returns, and none otherwise. *)
Definition reports_once (c : IO unit) : Prop :=
  forall w,
    count_json (stdout (snd (c w)))
    = (count_json (stdout w)
       + match fst (c w) with Returns _ => 1 | _ => 0 end)%nat.

(** A command calls [sys.exit] with status 1 only. *)
Definition exits_with_1 {A} (c : IO A) : Prop :=
  forall w n, fst (c w) = Exits n -> n = 1%Z.

(* ===================================================================== *)
(** ** Reference instances of the capabilities *)
(* ===================================================================== *)

(** Executable stand-ins for the third-party libraries, over the
    rationals: they let the model be evaluated on concrete inputs.  The
    results proved below hold for every instance. *)
Module Reference.

(** *** The scorer: [fuzz.token_sort_ratio] *)

(** One row of the longest-common-subsequence table: [prev] is the row
    of the characters of [s1] read so far, [left] the entry to the left
    and [diag] the entry above it. *)
Fixpoint lcs_row (x : ascii) (s2 : list ascii) (prev : list nat)
    (diag left : nat) : list nat :=
  match s2, prev with
  | y :: s2', up :: prev' =>
      let cell := if Ascii.eqb x y then S diag else Nat.max up left in
      cell :: lcs_row x s2' prev' up cell
  | _, _ => []
  end.

Definition lcs_table (s1 s2 : list ascii) : list nat :=
  fold_left (fun prev x => lcs_row x s2 prev 0 0) s1
    (repeat 0%nat (List.length s2)).

Definition lcs_length (s1 s2 : list ascii) : nat :=
  last (lcs_table s1 s2) 0%nat.

(** For the proofs: the cells of a row, from column [n] on, are bounded
    by their column. *)
Fixpoint bounded_from (n : nat) (row : list nat) : Prop :=
  match row with
  | [] => True
  | c :: r => (c <= n)%nat /\ bounded_from (S n) r
  end.

(** [fuzz.ratio]: the normalised Indel similarity, times [100]. *)
Definition ratio (s1 s2 : string) : Q :=
  let total := (String.length s1 + String.length s2)%nat in
  if (total =? 0)%nat then 100
  else
    let l := lcs_length (list_ascii_of_string s1) (list_ascii_of_string s2) in
    inject_Z (Z.of_nat (200 * l)) / inject_Z (Z.of_nat total).

Fixpoint insert_sorted (x : string) (l : list string) : list string :=
  match l with
  | [] => [x]
  | y :: l' => if String.leb x y then x :: l else y :: insert_sorted x l'
  end.

(** [sorted(tokens)] *)
Definition sorted (tokens : list string) : list string :=
  fold_right insert_sorted [] tokens.

Definition token_sort_ratio (s1 s2 : string) : Q :=
  let sorted_s1 := PyStr.join " " (sorted (PyStr.split_all s1)) in
  let sorted_s2 := PyStr.join " " (sorted (PyStr.split_all s2)) in
  ratio sorted_s1 sorted_s2.

(** *** The index: exhaustive search by squared Euclidean distance *)

Fixpoint l2_sqr (u v : vector) : Q :=
  match u, v with
  | a :: u', b :: v' => (a - b) * (a - b) + l2_sqr u' v'
  | _, _ => 0
  end.

Fixpoint insert_near (p : Q * Z) (l : list (Q * Z)) : list (Q * Z) :=
  match l with
  | [] => [p]
  | q :: l' =>
      if Qlt_bool (fst p) (fst q) then p :: l else q :: insert_near p l'
  end.

(** The largest finite [float32], the distance of an absent neighbour. *)
Definition FLT_MAX : Q := inject_Z 340282346638528859811704183484516925440.

Definition nearest3 (index : IndexFlatL2) (x : vector)
  : (Q * Q * Q) * (Z * Z * Z) :=
  let scored :=
    map (fun '(i, v) => (Qred (l2_sqr x v), Z.of_nat i))
      (combine (seq 0 (List.length (xb index))) (xb index)) in
  let ranked := fold_left (fun acc p => insert_near p acc) (rev scored) [] in
  let nth_ j := nth j ranked (FLT_MAX, (-1)%Z) in
  ((fst (nth_ 0%nat), fst (nth_ 1%nat), fst (nth_ 2%nat)),
   (snd (nth_ 0%nat), snd (nth_ 1%nat), snd (nth_ 2%nat))).

Definition faiss_search (index : IndexFlatL2) (x : list vector)
  : result (Distances * Labels) :=
  if forallb (fun v => (List.length v =? dim index)%nat) x then
    let rows := map (nearest3 index) x in
    Ok (map fst rows, map snd rows)
  else Raise AssertionError.

(** *** The encoder: two coordinates read off the text *)

Definition count_space (s : string) : nat :=
  List.length (filter PyStr.isspace (list_ascii_of_string s)).

Definition toy_vector (s : string) : vector :=
  [inject_Z (Z.of_nat (String.length s)) / 100;
   inject_Z (Z.of_nat (count_space s)) / 10].

(** An encoder that rejects an empty text. *)
Definition toy_embedder : Embedder :=
  {| encode := fun texts =>
       if existsb (String.eqb EmptyString) texts
       then Raise (Exception "ValueError" "empty text")
       else Ok (map toy_vector texts) |}.

Definition SentenceTransformer (name : string) : result Embedder :=
  if (name =? "all-MiniLM-L6-v2")%string then Ok toy_embedder
  else Raise (Exception "OSError" ("no model named " ++ name)%string).

(** The text of a score, to three decimals (Python prints the shortest
    text that reads back as the same float). *)
Definition float_str (x : Q) : string := Fmt.format_3f x.

Definition demo_lines : list string :=
  ["00001 I219    1 AMI        Acute myocardial infarction, unspecified";
   "00002 J111    1 Influenza  Influenza with other respiratory manifestations";
   "malformed line";
   "00003 E119    1 Diabetes   Type 2 diabetes mellitus without complications";
   "00004 A000    1 Cholera    Cholera due to Vibrio cholerae"].

Definition demo_entries : list CodeEntry :=
  Eval vm_compute in parse_entries demo_lines.

Definition demo_index : IndexFlatL2 :=
  {| dim := 2; xb := map toy_vector (chunks_of demo_entries) |}.

Definition demo_assets : Assets :=
  mkAssets (chunks_of demo_entries) (codes_of demo_entries)
    (descriptions_of demo_entries) demo_index toy_embedder.

(** A fresh working directory: only [codes.txt] is there. *)
Definition fresh_world : World :=
  mkWorld (Holds demo_lines) Missing Missing Missing Missing [].

(** A catalog without a well-formed line: the chunk list is empty. *)
Definition empty_catalog_world : World :=
  mkWorld (Holds ["malformed line"]) (Holds []) (Holds []) (Holds [])
    Missing [].

(** The codes and the index are there, the chunk list was removed. *)
Definition broken_world : World :=
  mkWorld (Holds demo_lines) Missing (Holds (codes_of demo_entries))
    (Holds (descriptions_of demo_entries)) (Holds demo_index) [].

Definition demo_match : string -> result MatchResult :=
  match_diagnosis token_sort_ratio faiss_search float_str demo_assets.

(** A search that finds the entries 2, 0 and 3 at the distances 0.9, 1.1
    and 1.3, whatever the query. *)
Definition far_search (_ : IndexFlatL2) (x : list vector)
  : result (Distances * Labels) :=
  Ok (map (fun _ => (9 # 10, 11 # 10, 13 # 10)) x,
      map (fun _ => (2%Z, 0%Z, 3%Z)) x).

End Reference.


(** Further worlds and capabilities for evaluating the model. *)
Module Scenarios.

(** A search that answers with the positions [-1], [1] and [-4]. *)
Definition wrap_search (_ : IndexFlatL2) (x : list vector)
  : result (Distances * Labels) :=
  Ok (map (fun _ => (1 # 2, 3 # 4, 1)) x,
      map (fun _ => ((-1)%Z, 1%Z, (-4)%Z)) x).

(** A search whose nearest distance is the [float32] nearest to 0.8. *)
Definition threshold_search (_ : IndexFlatL2) (x : list vector)
  : result (Distances * Labels) :=
  Ok (map (fun _ => (13421773 # 16777216, 1, 2)) x,
      map (fun _ => (0%Z, 1%Z, 2%Z)) x).

(** The assets of the demonstration catalog without its codes. *)
Definition no_codes_assets : Assets :=
  mkAssets (icd_chunks Reference.demo_assets) []
    (icd_descs Reference.demo_assets) (index Reference.demo_assets)
    (embedder Reference.demo_assets).

(** A directory with neither the catalog nor anything built from it. *)
Definition empty_world : World :=
  mkWorld Missing Missing Missing Missing Missing [].

(** The vectors of the chunk texts of the demonstration catalog. *)
Definition demo_vectors : list vector :=
  Eval vm_compute in map Reference.toy_vector (chunks_of Reference.demo_entries).

Definition two_diagnoses : list string :=
  ["icd10_mapper.py"; "heart attack"; "Cholera due to Vibrio cholera"].

(** A catalog line with a tab, runs of blanks and its line end. *)
Definition ragged_line : string :=
  ("  00004" ++ String (ascii_of_nat 9) "A000   1 Cholera   "
   ++ "Cholera due to  Vibrio cholerae 01 "
   ++ String (ascii_of_nat 10) EmptyString)%string.

Definition ragged_entry : CodeEntry :=
  mkEntry "A000" "Cholera" "Cholera due to  Vibrio cholerae 01".

(** A line of four fields. *)
Definition short_line : string := "00004 A000 1 Cholera".

End Scenarios.

(* ===================================================================== *)
(** ** Facts about the Python string operations *)
(* ===================================================================== *)

Module PyStrFacts.
Import PyStr.

Lemma split_eq (k : nat) (s : string) :
  split k s =
    match lstrip s with
    | EmptyString => []
    | String c r =>
        match k with
        | O => [String c r]
        | S m => let (w, rest) := span_word (String c r) in w :: split m rest
        end
    end.
Proof. destruct k; simpl; destruct (lstrip s); reflexivity. Qed.

Lemma split_length_le (k : nat) : forall s, (List.length (split k s) <= S k)%nat.
Proof.
  induction k as [|k IH]; intros s; rewrite split_eq.
  - destruct (lstrip s); simpl; lia.
  - destruct (lstrip s) as [|c r]; [simpl; lia|].
    destruct (span_word (String c r)) as [w rest]. simpl.
    specialize (IH rest). lia.
Qed.

Lemma lstrip_head (s : string) (c : ascii) (r : string) :
  lstrip s = String c r -> isspace c = false.
Proof.
  induction s as [|a s IH]; simpl; [discriminate|].
  destruct (isspace a) eqn:E; [exact IH|].
  intros H; injection H as <- _. exact E.
Qed.

Lemma span_word_no_space (s w rest : string) :
  span_word s = (w, rest) -> has_space w = false.
Proof.
  revert w rest; induction s as [|a s IH]; simpl; intros w rest H.
  - injection H as <- _. reflexivity.
  - destruct (isspace a) eqn:E.
    + injection H as <- _. reflexivity.
    + destruct (span_word s) as [w' rest'] eqn:Es.
      injection H as <- _. unfold has_space; simpl. rewrite E.
      exact (IH w' rest' eq_refl).
Qed.

Lemma rstrip_no_space (s : string) : has_space s = false -> rstrip s = s.
Proof.
  unfold has_space.
  induction s as [|a s IH]; simpl; [reflexivity|].
  intros H; apply orb_false_iff in H as [Ha Hs].
  rewrite (IH Hs), Ha. destruct s; reflexivity.
Qed.

Lemma lstrip_no_space (s : string) : has_space s = false -> lstrip s = s.
Proof.
  unfold has_space. destruct s as [|a s]; simpl; [reflexivity|].
  intros H; apply orb_false_iff in H as [Ha _]. rewrite Ha; reflexivity.
Qed.

(** A word is left as it is by [strip]. *)
Lemma strip_no_space (s : string) : has_space s = false -> strip s = s.
Proof.
  intros H; unfold strip. rewrite (lstrip_no_space s H). apply rstrip_no_space, H.
Qed.

(** The items cut before the limit of [split] are words. *)
Lemma split_words_no_space (k : nat) :
  forall s j w,
    (j < k)%nat -> nth_error (split k s) j = Some w -> has_space w = false.
Proof.
  induction k as [|k IH]; intros s j w Hj; [lia|].
  rewrite split_eq. destruct (lstrip s) as [|c r]; [destruct j; discriminate|].
  destruct (span_word (String c r)) as [w0 rest] eqn:E.
  destruct j as [|j]; simpl.
  - intros H; injection H as <-. apply (span_word_no_space _ _ _ E).
  - apply IH. lia.
Qed.

(** The last item of a limited [split] does not start with white space. *)
Lemma split_items_lstrip (k : nat) :
  forall s j w, nth_error (split k s) j = Some w -> lstrip w = w.
Proof.
  induction k as [|k IH]; intros s j w; rewrite split_eq;
    destruct (lstrip s) as [|c r] eqn:El; try (destruct j; discriminate).
  - destruct j as [|[|j]]; simpl; try discriminate.
    intros H; injection H as <-. simpl.
    rewrite (lstrip_head _ _ _ El). reflexivity.
  - destruct (span_word (String c r)) as [w0 rest] eqn:E.
    destruct j as [|j]; simpl.
    + intros H; injection H as <-.
      apply lstrip_no_space, (span_word_no_space _ _ _ E).
    + apply IH.
Qed.

End PyStrFacts.

(* ===================================================================== *)
(** ** Facts about [extractOne] *)
(* ===================================================================== *)

Lemma Qle_boolP (a b : Q) : BoolSpec (a <= b) (b < a) (Qle_bool a b).
Proof.
  destruct (Qle_bool a b) eqn:E; constructor.
  - apply Qle_bool_iff, E.
  - apply Qnot_le_lt. intros H. apply Qle_bool_iff in H. congruence.
Qed.

Lemma Qlt_boolP (a b : Q) : BoolSpec (a < b) (b <= a) (Qlt_bool a b).
Proof.
  unfold Qlt_bool. destruct (Qle_boolP b a); constructor; assumption.
Qed.

Lemma Qeq_boolP (a b : Q) : BoolSpec (a == b) (~ a == b) (Qeq_bool a b).
Proof.
  destruct (Qeq_bool a b) eqn:E; constructor.
  - apply Qeq_bool_iff, E.
  - intros H. apply Qeq_bool_iff in H. congruence.
Qed.

Lemma Qle_bool_true (a b : Q) : a <= b -> Qle_bool a b = true.
Proof. intros H; destruct (Qle_boolP a b); [reflexivity|lra]. Qed.

Lemma Qle_bool_false (a b : Q) : b < a -> Qle_bool a b = false.
Proof. intros H; destruct (Qle_boolP a b); [lra|reflexivity]. Qed.

Section RapidfuzzFacts.

Variable scorer : string -> string -> Q.
Hypothesis scorer_le_100 : forall q c, scorer q c <= 100.
Variable query : string.
Variable cutoff0 : Q.
Hypothesis cutoff0_pos : 0 < cutoff0.

Let sc (kc : nat * string) : Q := scorer query (snd kc).

Lemma loop_post_skip kc rest res final :
  not_better cutoff0 res (sc kc) ->
  loop_post scorer query cutoff0 rest res final ->
  loop_post scorer query cutoff0 (kc :: rest) res final.
Proof.
  unfold loop_post, not_better, sc.
  destruct final as [[[c s] k]|].
  - intros Hnb [[-> Hall]|(l1 & l2 & -> & Hs & Hc & Hl1 & Hl2 & Hlt)].
    + left. split; [reflexivity|]. constructor; assumption.
    + right. exists (kc :: l1), l2. repeat split; try assumption.
      constructor; [|assumption].
      destruct res as [[[c0 s0] k0]|]; cbv beta; lra.
  - intros Hnb [-> Hall]. split; [reflexivity|]. constructor; assumption.
Qed.

Lemma loop_post_take key choice rest res final :
  cutoff0 <= scorer query choice ->
  match res with
  | Some (_, best, _) => best < scorer query choice
  | None => True
  end ->
  loop_post scorer query cutoff0 rest
    (Some (choice, scorer query choice, key)) final ->
  loop_post scorer query cutoff0 ((key, choice) :: rest) res final.
Proof.
  unfold loop_post.
  destruct final as [[[c s] k]|].
  - intros Hc Hres [[Heq Hall]|(l1 & l2 & -> & Hs & Hcs & Hl1 & Hl2 & Hlt)].
    + injection Heq as <- <- <-. right. exists [], rest.
      repeat split; try assumption. constructor.
    + right. exists ((key, choice) :: l1), l2.
      repeat split; try assumption.
      * constructor; [exact Hlt|assumption].
      * destruct res as [[[c0 s0] k0]|]; [lra|exact I].
  - intros _ _ [Heq _]. discriminate.
Qed.

Lemma loop_post_stop c s k rest :
  100 <= s ->
  loop_post scorer query cutoff0 rest (Some (c, s, k)) (Some (c, s, k)).
Proof.
  intros Hs. left. split; [reflexivity|].
  apply Forall_forall. intros kc _.
  pose proof (scorer_le_100 query (snd kc)). lra.
Qed.

Lemma scorer_with_cutoff_ge choice score_cutoff :
  score_cutoff <= scorer query choice ->
  scorer_with_cutoff scorer query choice score_cutoff = scorer query choice.
Proof.
  intros H. unfold scorer_with_cutoff.
  destruct (Qle_boolP score_cutoff (scorer query choice)); [reflexivity|lra].
Qed.

Lemma scorer_with_cutoff_lt choice score_cutoff :
  scorer query choice < score_cutoff ->
  scorer_with_cutoff scorer query choice score_cutoff = 0.
Proof.
  intros H. unfold scorer_with_cutoff.
  destruct (Qle_boolP score_cutoff (scorer query choice)); [lra|reflexivity].
Qed.

Lemma extractOne_loop_post (cs : list (nat * string)) :
  forall score_cutoff res,
    loop_inv cutoff0 score_cutoff res ->
    loop_post scorer query cutoff0 cs res
      (extractOne_loop scorer query cs score_cutoff res).
Proof.
  induction cs as [|[key choice] rest IH]; intros score_cutoff res Hinv.
  - simpl. destruct res as [[[c s] k]|]; simpl.
    + left. split; [reflexivity|constructor].
    + split; [reflexivity|constructor].
  - cbn [extractOne_loop].
    destruct res as [[[c0 s0] k0]|]; simpl in Hinv.
    + destruct Hinv as [-> Hc0].
      destruct (Qlt_le_dec (scorer query choice) s0) as [H1|H1].
      * (* below the best score: reported as 0 *)
        rewrite (scorer_with_cutoff_lt _ _ H1).
        rewrite (Qle_bool_false s0 0) by lra. cbn [andb].
        change (Qeq_bool 0 100) with false. cbv iota.
        apply loop_post_skip; [unfold not_better, sc; simpl; lra|].
        apply IH. simpl. split; [reflexivity|assumption].
      * rewrite (scorer_with_cutoff_ge _ _ H1).
        rewrite (Qle_bool_true _ _ H1). cbn [andb].
        destruct (Qlt_boolP s0 (scorer query choice)) as [H2|H2].
        -- apply loop_post_take; [lra|exact H2|].
           destruct (Qeq_boolP (scorer query choice) 100) as [H3|H3].
           ++ apply loop_post_stop; lra.
           ++ apply IH. simpl. split; [reflexivity|lra].
        -- apply loop_post_skip; [unfold not_better, sc; simpl; lra|].
           destruct (Qeq_boolP (scorer query choice) 100) as [H3|H3].
           ++ apply loop_post_stop; lra.
           ++ apply IH. simpl. split; [reflexivity|assumption].
    + subst score_cutoff.
      destruct (Qlt_le_dec (scorer query choice) cutoff0) as [H1|H1].
      * rewrite (scorer_with_cutoff_lt _ _ H1).
        rewrite (Qle_bool_false cutoff0 0) by lra. cbn [andb].
        change (Qeq_bool 0 100) with false. cbv iota.
        apply loop_post_skip; [unfold not_better, sc; simpl; lra|].
        apply IH. reflexivity.
      * rewrite (scorer_with_cutoff_ge _ _ H1).
        rewrite (Qle_bool_true _ _ H1). cbn [andb].
        apply loop_post_take; [exact H1|exact I|].
        destruct (Qeq_boolP (scorer query choice) 100) as [H3|H3].
        -- apply loop_post_stop; lra.
        -- apply IH. simpl. split; [reflexivity|assumption].
Qed.

End RapidfuzzFacts.

Section EnumerateFacts.

Context {A : Type}.

Lemma enumerate_snd (l : list A) : map snd (enumerate l) = l.
Proof.
  unfold enumerate. generalize 0%nat.
  induction l as [|x l IH]; intros n; simpl; [reflexivity|].
  f_equal. apply IH.
Qed.

Lemma enumerate_fst (l : list A) :
  map fst (enumerate l) = seq 0 (List.length l).
Proof.
  unfold enumerate. generalize 0%nat.
  induction l as [|x l IH]; intros n; simpl; [reflexivity|].
  f_equal. apply IH.
Qed.

(** A cut of the enumeration is a cut of the list at that key. *)
Lemma enumerate_split (l : list A) l1 k c l2 :
  enumerate l = l1 ++ (k, c) :: l2 ->
  k = List.length l1 /\ l = map snd l1 ++ c :: map snd l2.
Proof.
  intros H. split.
  - pose proof (enumerate_fst l) as Hf. rewrite H, map_app in Hf. simpl in Hf.
    assert (Hn : nth (List.length l1) (seq 0 (List.length l)) 0%nat = k).
    { rewrite <- Hf, app_nth2; rewrite length_map; [|lia].
      rewrite Nat.sub_diag. reflexivity. }
    rewrite seq_nth in Hn; [lia|].
    apply (f_equal (@List.length nat)) in Hf.
    rewrite length_seq, length_app in Hf. simpl in Hf.
    rewrite length_map in Hf. lia.
  - rewrite <- (enumerate_snd l), H, map_app. reflexivity.
Qed.

End EnumerateFacts.

Section ExtractOneSpec.

Variable scorer : string -> string -> Q.
Hypothesis scorer_le_100 : forall q c, scorer q c <= 100.
Variable cutoff0 : Q.
Hypothesis cutoff0_pos : 0 < cutoff0.

(** [extractOne] returns nothing exactly when every score is below the
    cutoff; otherwise it returns the first choice of largest score,
    with that score and its position. *)
Lemma extractOne_spec (query : string) (choices : list string) :
  match extractOne scorer query choices cutoff0 with
  | None => forall c, In c choices -> scorer query c < cutoff0
  | Some (c, s, k) =>
      nth_error choices k = Some c /\ s = scorer query c /\ cutoff0 <= s
      /\ (forall c', In c' choices -> scorer query c' <= s)
      /\ (forall j c', (j < k)%nat -> nth_error choices j = Some c' ->
                       scorer query c' < s)
  end.
Proof.
  unfold extractOne.
  pose proof (extractOne_loop_post scorer scorer_le_100 query cutoff0
                cutoff0_pos (enumerate choices) cutoff0 None eq_refl) as H.
  unfold loop_post in H.
  destruct (extractOne_loop scorer query (enumerate choices) cutoff0 None)
    as [[[c s] k]|].
  - destruct H as [[Heq _]|(l1 & l2 & Hcut & Hs & Hc & Hl1 & Hl2 & _)];
      [discriminate|].
    apply enumerate_split in Hcut as [Hk Hl].
    rewrite Forall_forall in Hl1, Hl2.
    repeat split; try assumption.
    + rewrite Hl, Hk, nth_error_app2; rewrite length_map; [|lia].
      rewrite Nat.sub_diag. reflexivity.
    + intros c' Hin. rewrite Hl in Hin.
      apply in_app_or in Hin as [Hin|[<-|Hin]].
      * apply in_map_iff in Hin as (kc & <- & Hin).
        apply Qlt_le_weak, (Hl1 kc Hin).
      * rewrite Hs. apply Qle_refl.
      * apply in_map_iff in Hin as (kc & <- & Hin). apply (Hl2 kc Hin).
    + intros j c' Hj Hnth. rewrite Hl in Hnth.
      rewrite nth_error_app1 in Hnth by (rewrite length_map; lia).
      apply nth_error_In, in_map_iff in Hnth as (kc & <- & Hin).
      apply (Hl1 kc Hin).
  - destruct H as [_ Hall]. rewrite Forall_forall in Hall.
    intros c Hin. rewrite <- (enumerate_snd choices) in Hin.
    apply in_map_iff in Hin as (kc & <- & Hin). apply (Hall kc Hin).
Qed.

End ExtractOneSpec.

(* ===================================================================== *)
(** ** Facts about the reference scorer *)
(* ===================================================================== *)

Module ReferenceFacts.
Import Reference.

Lemma lcs_row_length x s2 : forall prev diag left,
  List.length prev = List.length s2 ->
  List.length (lcs_row x s2 prev diag left) = List.length s2.
Proof.
  induction s2 as [|y s2 IH]; intros [|up prev] diag left H; simpl in *;
    try reflexivity; try discriminate.
  f_equal. apply IH. lia.
Qed.

Lemma lcs_row_bounded x s2 : forall prev diag left n,
  bounded_from (S n) prev -> (diag <= n)%nat -> (left <= n)%nat ->
  bounded_from (S n) (lcs_row x s2 prev diag left).
Proof.
  induction s2 as [|y s2 IH]; intros [|up prev] diag left n Hp Hd Hl;
    simpl; try exact I.
  destruct Hp as [Hup Hp].
  assert (Hcell : ((if Ascii.eqb x y then S diag else Nat.max up left) <= S n)%nat)
    by (destruct (Ascii.eqb x y); lia).
  split; [exact Hcell|]. apply IH; [exact Hp|exact Hup|exact Hcell].
Qed.

Lemma lcs_row_rows x s2 i : forall prev diag left,
  Forall (fun c => (c <= i)%nat) prev -> (diag <= i)%nat -> (left <= S i)%nat ->
  Forall (fun c => (c <= S i)%nat) (lcs_row x s2 prev diag left).
Proof.
  induction s2 as [|y s2 IH]; intros [|up prev] diag left Hp Hd Hl;
    simpl; try constructor.
  - inversion Hp; subst. destruct (Ascii.eqb x y); lia.
  - inversion Hp; subst. apply IH; try assumption.
    destruct (Ascii.eqb x y); lia.
Qed.

Lemma bounded_from_repeat k n : bounded_from n (repeat 0%nat k).
Proof.
  revert n; induction k as [|k IH]; intros n; simpl; [exact I|].
  split; [lia|apply IH].
Qed.

Lemma bounded_from_last row : forall n,
  bounded_from (S n) row -> (last row 0%nat <= n + List.length row)%nat.
Proof.
  induction row as [|c row IH]; intros n H; simpl; [lia|].
  destruct H as [Hc Hr]. destruct row as [|c' row'].
  - lia.
  - specialize (IH (S n) Hr). simpl in IH |- *. lia.
Qed.

Lemma Forall_last {A} (P : A -> Prop) (l : list A) (d : A) :
  Forall P l -> P d -> P (last l d).
Proof.
  induction l as [|a l IH]; intros Hl Hd; simpl; [exact Hd|].
  inversion Hl; subst. destruct l; [assumption|]. apply IH; assumption.
Qed.

(** The invariant of the table: after the characters [s1], the row has
    the length of [s2], its cells are bounded by their column and by
    the number of rows. *)
Lemma lcs_table_inv s2 s1 : forall prev i,
  List.length prev = List.length s2 ->
  bounded_from 1 prev ->
  Forall (fun c => (c <= i)%nat) prev ->
  let row := fold_left (fun prev x => lcs_row x s2 prev 0%nat 0%nat) s1 prev in
  List.length row = List.length s2 /\ bounded_from 1 row
  /\ Forall (fun c => (c <= i + List.length s1)%nat) row.
Proof.
  induction s1 as [|x s1 IH]; intros prev i Hlen Hb Hr; simpl.
  - repeat split; try assumption.
    eapply Forall_impl; [|exact Hr]. simpl; intros; lia.
  - specialize (IH (lcs_row x s2 prev 0%nat 0%nat) (S i)).
    simpl in IH. replace (i + S (List.length s1))%nat
      with (S (i + List.length s1)) by lia.
    apply IH.
    + apply lcs_row_length, Hlen.
    + apply lcs_row_bounded; [exact Hb|lia|lia].
    + apply lcs_row_rows; [exact Hr|lia|lia].
Qed.

Lemma lcs_length_le (s1 s2 : list ascii) :
  (lcs_length s1 s2 <= List.length s1)%nat
  /\ (lcs_length s1 s2 <= List.length s2)%nat.
Proof.
  unfold lcs_length, lcs_table.
  destruct (lcs_table_inv s2 s1 (repeat 0%nat (List.length s2)) 0%nat)
    as (Hlen & Hb & Hr).
  - apply repeat_length.
  - apply bounded_from_repeat.
  - apply Forall_forall. intros c Hc. apply repeat_spec in Hc. lia.
  - set (row := fold_left _ s1 _) in *. split.
    + apply (Forall_last (fun c => (c <= 0 + List.length s1)%nat)) with (d := 0%nat)
        in Hr; [exact Hr|lia].
    + pose proof (bounded_from_last row 0%nat Hb) as H. simpl in H. lia.
Qed.

Lemma length_list_ascii (s : string) :
  List.length (list_ascii_of_string s) = String.length s.
Proof. induction s; simpl; congruence. Qed.

Lemma ratio_le_100 (s1 s2 : string) : ratio s1 s2 <= 100.
Proof.
  unfold ratio.
  destruct (Nat.eqb_spec (String.length s1 + String.length s2) 0) as [E|E];
    [apply Qle_refl|].
  pose proof (lcs_length_le (list_ascii_of_string s1) (list_ascii_of_string s2))
    as [H1 H2].
  rewrite !length_list_ascii in H1, H2.
  set (l := lcs_length _ _) in *.
  apply Qle_shift_div_r.
  - change 0 with (inject_Z 0). rewrite <- Zlt_Qlt. lia.
  - change 100 with (inject_Z 100). rewrite <- inject_Z_mult, <- Zle_Qle. lia.
Qed.

Lemma token_sort_ratio_le_100 (q c : string) : token_sort_ratio q c <= 100.
Proof. apply ratio_le_100. Qed.

End ReferenceFacts.

(* ===================================================================== *)
(** ** Step 1: the catalog *)
(* ===================================================================== *)

(** The loop that appends to [entries], from any list built so far. *)
Lemma parse_loop_eq (lines : list string) :
  forall entries,
    fold_left
      (fun entries line =>
         match entry_of_line line with
         | Some e => entries ++ [e]
         | None => entries
         end) lines entries
    = entries ++ flat_map (fun line => match entry_of_line line with
                                       | Some e => [e]
                                       | None => []
                                       end) lines.
Proof.
  induction lines as [|line lines IH]; intros entries; simpl.
  - symmetry; apply app_nil_r.
  - rewrite IH. destruct (entry_of_line line); simpl.
    + rewrite <- app_assoc. reflexivity.
    + reflexivity.
Qed.

Lemma entry_of_line_eq (line : string) :
  entry_of_line line =
    match PyStr.split 4 (PyStr.strip line) with
    | [_; t2; _; t4; t5] => Some (mkEntry t2 (PyStr.strip t4) (PyStr.strip t5))
    | _ => None
    end.
Proof.
  unfold entry_of_line.
  destruct (PyStr.split 4 (PyStr.strip line)) as [|t1 [|t2 [|t3 [|t4 [|t5 [|t6 l]]]]]];
    reflexivity.
Qed.

(** The code and the short description of an entry are the 2nd and the
    4th item as they are: words, which [strip] leaves unchanged. *)
Lemma entry_fields_are_words (line : string) (e : CodeEntry) :
  entry_of_line line = Some e ->
  exists t1 t3 t5,
    PyStr.split 4 (PyStr.strip line)
    = [t1; code e; t3; short_description e; t5]
    /\ long_description e = PyStr.rstrip t5
    /\ PyStr.has_space (code e) = false
    /\ PyStr.has_space (short_description e) = false.
Proof.
  rewrite entry_of_line_eq.
  destruct (PyStr.split 4 (PyStr.strip line))
    as [|t1 [|t2 [|t3 [|t4 [|t5 [|t6 l]]]]]] eqn:E; try discriminate.
  intros H; injection H as <-. cbn [code short_description long_description].
  assert (H2 : PyStr.has_space t2 = false).
  { apply (PyStrFacts.split_words_no_space 4 (PyStr.strip line) 1); [lia|].
    rewrite E. reflexivity. }
  assert (H4 : PyStr.has_space t4 = false).
  { apply (PyStrFacts.split_words_no_space 4 (PyStr.strip line) 3); [lia|].
    rewrite E. reflexivity. }
  assert (H5 : PyStr.lstrip t5 = t5).
  { apply (PyStrFacts.split_items_lstrip 4 (PyStr.strip line) 4).
    rewrite E. reflexivity. }
  exists t1, t3, t5. rewrite (PyStrFacts.strip_no_space t4 H4).
  unfold PyStr.strip. rewrite H5. repeat split; assumption.
Qed.

(** *** The layout of a catalog line

    [Fields.five_fields] says where the fields of an entry lie in a line,
    in terms of concatenation and of character classes only.  The lemmas
    below show that [strip] and [split] cut a line at exactly these
    places. *)

Module FieldsFacts.
Import PyStr Fields.

Lemma sapp_assoc (a b c : string) : ((a ++ b) ++ c = a ++ (b ++ c))%string.
Proof. induction a as [|x a IH]; simpl; [reflexivity|]. rewrite IH. reflexivity. Qed.

Lemma sapp_nil_r (s : string) : (s ++ EmptyString)%string = s.
Proof. induction s as [|x s IH]; simpl; [reflexivity|]. rewrite IH. reflexivity. Qed.

Lemma all_space_app (a b : string) :
  all_space (a ++ b)%string = all_space a && all_space b.
Proof.
  unfold all_space. induction a as [|x a IH]; simpl; [reflexivity|].
  rewrite IH. apply andb_assoc.
Qed.

Lemma eqb_empty_false (c : ascii) (s : string) :
  String.eqb (String c s) EmptyString = false.
Proof. reflexivity. Qed.

Lemma lstrip_app_space (ws s : string) :
  all_space ws = true -> lstrip (ws ++ s)%string = lstrip s.
Proof.
  unfold all_space. induction ws as [|x ws IH]; simpl; [reflexivity|].
  intros H. apply andb_true_iff in H as [Hx Hws]. rewrite Hx. apply IH, Hws.
Qed.

Lemma lstrip_nonspace (s : string) :
  nonspace (first_char s) = true -> lstrip s = s.
Proof.
  destruct s as [|c r]; simpl; [discriminate|].
  intros H. apply negb_true_iff in H. rewrite H. reflexivity.
Qed.

Lemma word_inv (t : string) :
  is_word t = true ->
  has_space t = false /\ exists c r, t = String c r /\ isspace c = false.
Proof.
  unfold is_word. intros H. apply andb_true_iff in H as [Hne Hsp].
  apply negb_true_iff in Hsp. split; [exact Hsp|].
  destruct t as [|c r]; [discriminate Hne|].
  exists c, r. split; [reflexivity|].
  unfold has_space in Hsp. simpl in Hsp.
  apply orb_false_iff in Hsp as [Hc _]. exact Hc.
Qed.

Lemma gap_inv (g : string) :
  is_gap g = true ->
  all_space g = true /\ exists c r, g = String c r /\ isspace c = true.
Proof.
  unfold is_gap. intros H. apply andb_true_iff in H as [Hne Hsp].
  split; [exact Hsp|]. destruct g as [|c r]; [discriminate Hne|].
  exists c, r. split; [reflexivity|].
  unfold all_space in Hsp. simpl in Hsp.
  apply andb_true_iff in Hsp as [Hc _]. exact Hc.
Qed.

Lemma span_word_app (t s : string) :
  has_space t = false -> starts_space s = true ->
  span_word (t ++ s)%string = (t, s).
Proof.
  unfold has_space. induction t as [|x t IH]; simpl; intros Ht Hs.
  - destruct s as [|c r]; [reflexivity|]. simpl in Hs |- *. rewrite Hs.
    reflexivity.
  - apply orb_false_iff in Ht as [Hx Ht]. rewrite Hx, (IH Ht Hs). reflexivity.
Qed.

Lemma split_skip (k : nat) (ws s : string) :
  all_space ws = true -> split k (ws ++ s)%string = split k s.
Proof.
  intros H. rewrite !PyStrFacts.split_eq, (lstrip_app_space _ _ H). reflexivity.
Qed.

Lemma split_word (m : nat) (t s : string) :
  is_word t = true -> starts_space s = true ->
  split (S m) (t ++ s)%string = t :: split m s.
Proof.
  intros Ht Hs. destruct (word_inv t Ht) as (Hsp & c & r & -> & Hc).
  rewrite PyStrFacts.split_eq.
  rewrite lstrip_nonspace by (simpl; rewrite Hc; reflexivity).
  change (String c r ++ s)%string with (String c (r ++ s)%string). cbv iota. change (String c (r ++ s)%string) with (String c r ++ s)%string. rewrite (span_word_app _ _ Hsp Hs). reflexivity.
Qed.

Lemma split_rest (s : string) :
  nonspace (first_char s) = true -> split 0 s = [s].
Proof.
  intros H. rewrite PyStrFacts.split_eq, (lstrip_nonspace _ H).
  destruct s; [discriminate H|reflexivity].
Qed.

Lemma gap_starts (g s : string) :
  is_gap g = true -> starts_space (g ++ s)%string = true.
Proof.
  intros H. destruct (gap_inv g H) as (_ & c & r & -> & Hc). exact Hc.
Qed.

Lemma rstrip_all_space (ws : string) :
  all_space ws = true -> rstrip ws = EmptyString.
Proof.
  unfold all_space. induction ws as [|x ws IH]; simpl; [reflexivity|].
  intros H. apply andb_true_iff in H as [Hx Hws]. rewrite (IH Hws), Hx.
  reflexivity.
Qed.

Lemma rstrip_app_space (s ws : string) :
  all_space ws = true -> rstrip (s ++ ws)%string = rstrip s.
Proof.
  intros H. induction s as [|x s IH]; simpl.
  - apply rstrip_all_space, H.
  - rewrite IH. reflexivity.
Qed.

Lemma rstrip_app_keep (p s : string) :
  rstrip s <> EmptyString -> rstrip (p ++ s)%string = (p ++ rstrip s)%string.
Proof.
  intros H. induction p as [|x p IH]; simpl; [reflexivity|].
  rewrite IH. destruct (p ++ rstrip s)%string eqn:E; [|reflexivity].
  destruct p; simpl in E; [contradiction|discriminate].
Qed.

Lemma rstrip_last (s : string) :
  nonspace (last_char s) = true -> rstrip s = s.
Proof.
  induction s as [|c s IH]; [reflexivity|].
  destruct s as [|d s'].
  - simpl. intros H. apply negb_true_iff in H. rewrite H. reflexivity.
  - intros H. change (last_char (String c (String d s')))
      with (last_char (String d s')) in H.
    specialize (IH H). cbn [rstrip] in *. rewrite IH. reflexivity.
Qed.

Lemma lstrip_decomp (s : string) :
  exists ws, all_space ws = true /\ s = (ws ++ lstrip s)%string.
Proof.
  induction s as [|c s (ws & Hws & Hs)]; simpl.
  - exists EmptyString. split; reflexivity.
  - destruct (isspace c) eqn:Hc.
    + exists (String c ws). split.
      * unfold all_space in *. simpl. rewrite Hc. exact Hws.
      * simpl. rewrite <- Hs. reflexivity.
    + exists EmptyString. split; reflexivity.
Qed.

Lemma rstrip_decomp (s : string) :
  exists ws, all_space ws = true /\ s = (rstrip s ++ ws)%string.
Proof.
  induction s as [|c s (ws & Hws & Hs)]; simpl.
  - exists EmptyString. split; reflexivity.
  - destruct (rstrip s) as [|d r] eqn:E.
    + destruct (isspace c) eqn:Hc.
      * exists (String c ws). split.
        -- unfold all_space in *. simpl. rewrite Hc. exact Hws.
        -- simpl. simpl in Hs. rewrite <- Hs. reflexivity.
      * exists ws. split; [exact Hws|]. simpl in *. rewrite <- Hs. reflexivity.
    + exists ws. split; [exact Hws|]. simpl in *. rewrite <- Hs. reflexivity.
Qed.

Lemma span_word_decomp (s w rest : string) :
  span_word s = (w, rest) ->
  s = (w ++ rest)%string /\ has_space w = false /\ starts_space rest = true.
Proof.
  revert w rest. induction s as [|c s IH]; simpl; intros w rest H.
  - injection H as <- <-. repeat split.
  - destruct (isspace c) eqn:Hc.
    + injection H as <- <-. repeat split. exact Hc.
    + destruct (span_word s) as [w' rest'] eqn:E. injection H as <- <-.
      destruct (IH w' rest' eq_refl) as (Hs & Hw & Hr).
      split; [simpl; rewrite <- Hs; reflexivity|].
      split; [|exact Hr]. unfold has_space in *. simpl. rewrite Hc. exact Hw.
Qed.

Lemma rstrip_last_nonspace (s : string) :
  rstrip s <> EmptyString -> nonspace (last_char (rstrip s)) = true.
Proof.
  induction s as [|c s IH]; simpl; [contradiction|].
  destruct (rstrip s) as [|d r] eqn:E.
  - destruct (isspace c) eqn:Hc; [contradiction|].
    intros _. simpl. rewrite Hc. reflexivity.
  - intros _. change (last_char (String c (String d r)))
      with (last_char (String d r)). apply IH. discriminate.
Qed.

(** The first word cut by a [split]. *)
Lemma split_S_inv (m : nat) (s w : string) (l : list string) :
  split (S m) s = w :: l ->
  exists ws rest,
    all_space ws = true /\ s = (ws ++ w ++ rest)%string
    /\ is_word w = true /\ starts_space rest = true /\ split m rest = l.
Proof.
  rewrite PyStrFacts.split_eq.
  destruct (lstrip_decomp s) as (ws & Hws & Hs).
  destruct (lstrip s) as [|c r] eqn:El; [discriminate|].
  pose proof (PyStrFacts.lstrip_head _ _ _ El) as Hc.
  destruct (span_word (String c r)) as [w0 rest] eqn:E.
  intros H. injection H as <- <-.
  destruct (span_word_decomp _ _ _ E) as (Hcr & Hw & Hrest).
  exists ws, rest. split; [exact Hws|]. split; [rewrite <- Hcr; exact Hs|].
  split; [|split; [exact Hrest|reflexivity]].
  unfold is_word. rewrite Hw.
  simpl in E. rewrite Hc in E. destruct (span_word r) as [w1 r1].
  injection E as <- <-. reflexivity.
Qed.

Lemma split_0_inv (s w : string) :
  split 0 s = [w] ->
  exists ws, all_space ws = true /\ s = (ws ++ w)%string
             /\ nonspace (first_char w) = true.
Proof.
  rewrite PyStrFacts.split_eq.
  destruct (lstrip_decomp s) as (ws & Hws & Hs).
  destruct (lstrip s) as [|c r] eqn:El; [discriminate|].
  pose proof (PyStrFacts.lstrip_head _ _ _ El) as Hc.
  intros H. injection H as <-.
  exists ws. split; [exact Hws|]. split; [exact Hs|].
  simpl. rewrite Hc. reflexivity.
Qed.

(** White space before a word, after the end of another word, is a
    separator. *)
Lemma space_is_gap (ws w rest : string) :
  all_space ws = true -> nonspace (first_char w) = true ->
  starts_space (ws ++ w ++ rest)%string = true -> is_gap ws = true.
Proof.
  intros Hws Hw Hs. unfold is_gap. rewrite Hws.
  destruct ws as [|c r]; [|reflexivity].
  destruct w as [|d w']; [discriminate Hw|].
  simpl in Hs, Hw. rewrite Hs in Hw. discriminate Hw.
Qed.

Lemma word_first (w : string) :
  is_word w = true -> nonspace (first_char w) = true.
Proof.
  intros H. destruct (word_inv w H) as (_ & c & r & -> & Hc).
  simpl. rewrite Hc. reflexivity.
Qed.


(** A separator found by [split] after a word. *)
Lemma split_S_gap (m : nat) (s w : string) (l : list string) :
  starts_space s = true -> split (S m) s = w :: l ->
  exists g rest,
    is_gap g = true /\ s = (g ++ w ++ rest)%string
    /\ is_word w = true /\ starts_space rest = true /\ split m rest = l.
Proof.
  intros Hs H. destruct (split_S_inv _ _ _ _ H) as (ws & rest & Hws & -> & Hw & Hr & Hl).
  exists ws, rest. repeat split; try assumption.
  apply (space_is_gap ws w rest Hws (word_first _ Hw) Hs).
Qed.

Lemma split_0_gap (s w : string) :
  starts_space s = true -> split 0 s = [w] ->
  exists g, is_gap g = true /\ s = (g ++ w)%string
            /\ nonspace (first_char w) = true.
Proof.
  intros Hs H. destruct (split_0_inv _ _ H) as (ws & Hws & -> & Hw).
  exists ws. repeat split; try assumption.
  apply (space_is_gap ws w EmptyString Hws Hw). rewrite sapp_nil_r. exact Hs.
Qed.

Lemma trimmed_inv (s : string) :
  is_trimmed s = true ->
  nonspace (first_char s) = true /\ nonspace (last_char s) = true.
Proof. unfold is_trimmed. intros H. apply andb_true_iff in H. exact H. Qed.

Lemma strip_trimmed (s : string) : is_trimmed s = true -> strip s = s.
Proof.
  intros H. destruct (trimmed_inv s H) as [Hf Hl].
  unfold strip. rewrite (lstrip_nonspace _ Hf). apply rstrip_last, Hl.
Qed.

Lemma strip_word (t : string) : is_word t = true -> strip t = t.
Proof.
  intros H. apply PyStrFacts.strip_no_space. apply (word_inv t H).
Qed.

Lemma trimmed_nonempty (s : string) : is_trimmed s = true -> s <> EmptyString.
Proof. intros H ->. discriminate H. Qed.

(** The fields of a line laid out as [five_fields] says. *)
Lemma five_fields_entry (line : string) (e : CodeEntry) :
  five_fields line e -> entry_of_line line = Some e.
Proof.
  intros (ws0 & t1 & g1 & g2 & t3 & g3 & g4 & ws5 & -> & H0 & H5
          & Hg1 & Hg2 & Hg3 & Hg4 & Ht1 & Hc & Ht3 & Hsd & Hld).
  destruct e as [c sd ld]. cbn [code short_description long_description] in *.
  destruct (trimmed_inv ld Hld) as [Hf Hl].
  assert (Hstrip :
    strip (ws0 ++ t1 ++ g1 ++ c ++ g2 ++ t3 ++ g3 ++ sd ++ g4 ++ ld ++ ws5)
    = (t1 ++ g1 ++ c ++ g2 ++ t3 ++ g3 ++ sd ++ g4 ++ ld)%string).
  { unfold strip. rewrite (lstrip_app_space _ _ H0).
    rewrite lstrip_nonspace.
    2:{ destruct (word_inv t1 Ht1) as (_ & x & r & -> & Hx). simpl.
        rewrite Hx. reflexivity. }
    assert (Hr : rstrip (ld ++ ws5) = ld).
    { rewrite (rstrip_app_space _ _ H5). apply rstrip_last, Hl. }
    assert (Hne : rstrip (ld ++ ws5) <> EmptyString).
    { rewrite Hr. apply trimmed_nonempty, Hld. }
    replace (t1 ++ g1 ++ c ++ g2 ++ t3 ++ g3 ++ sd ++ g4 ++ ld ++ ws5)%string
      with ((t1 ++ g1 ++ c ++ g2 ++ t3 ++ g3 ++ sd ++ g4) ++ (ld ++ ws5))%string
      by (rewrite !sapp_assoc; reflexivity).
    rewrite (rstrip_app_keep _ _ Hne), Hr, !sapp_assoc. reflexivity. }
  rewrite entry_of_line_eq, Hstrip.
  rewrite (split_word 3 t1 _ Ht1 (gap_starts g1 _ Hg1)).
  rewrite (split_skip 3 g1 _ (proj1 (gap_inv _ Hg1))).
  rewrite (split_word 2 c _ Hc (gap_starts g2 _ Hg2)).
  rewrite (split_skip 2 g2 _ (proj1 (gap_inv _ Hg2))).
  rewrite (split_word 1 t3 _ Ht3 (gap_starts g3 _ Hg3)).
  rewrite (split_skip 1 g3 _ (proj1 (gap_inv _ Hg3))).
  rewrite (split_word 0 sd _ Hsd (gap_starts g4 _ Hg4)).
  rewrite (split_skip 0 g4 _ (proj1 (gap_inv _ Hg4))).
  rewrite (split_rest ld Hf).
  rewrite (strip_word sd Hsd), (strip_trimmed ld Hld). reflexivity.
Qed.

(** The layout of a line that gives an entry. *)
Lemma entry_five_fields (line : string) (e : CodeEntry) :
  entry_of_line line = Some e -> five_fields line e.
Proof.
  rewrite entry_of_line_eq.
  destruct (split 4 (strip line)) as [|t1 [|t2 [|t3 [|t4 [|t5 [|t6 l]]]]]] eqn:E;
    try discriminate.
  intros H; injection H as <-.
  destruct (split_S_inv _ _ _ _ E) as (wa & r1 & Hwa & Hs & Ht1 & Hr1 & E1).
  destruct (split_S_gap _ _ _ _ Hr1 E1) as (g1 & r2 & Hg1 & -> & Ht2 & Hr2 & E2).
  destruct (split_S_gap _ _ _ _ Hr2 E2) as (g2 & r3 & Hg2 & -> & Ht3 & Hr3 & E3).
  destruct (split_S_gap _ _ _ _ Hr3 E3) as (g3 & r4 & Hg3 & -> & Ht4 & Hr4 & E4).
  destruct (split_0_gap _ _ Hr4 E4) as (g4 & Hg4 & -> & Hf5).
  destruct (lstrip_decomp line) as (wA & HwA & HA).
  destruct (rstrip_decomp (lstrip line)) as (wB & HwB & HB).
  destruct (rstrip_decomp t5) as (wC & HwC & HC).
  fold (strip line) in HB. rewrite Hs in HB.
  assert (H5 : strip t5 = rstrip t5).
  { unfold strip. rewrite (lstrip_nonspace _ Hf5). reflexivity. }
  assert (Hne : rstrip t5 <> EmptyString).
  { destruct t5 as [|x t5']; [discriminate Hf5|].
    simpl in Hf5. apply negb_true_iff in Hf5.
    simpl. destruct (rstrip t5'); [rewrite Hf5|]; discriminate. }
  exists (wA ++ wa)%string, t1, g1, g2, t3, g3, g4, (wC ++ wB)%string.
  cbn [code short_description long_description].
  rewrite (strip_word t4 Ht4), H5.
  split.
  { rewrite HA, HB. rewrite HC at 1. rewrite !sapp_assoc. reflexivity. }
  rewrite !all_space_app, HwA, Hwa, HwB, HwC, Hg1, Hg2, Hg3, Hg4, Ht1, Ht2, Ht3, Ht4.
  repeat split.
  unfold is_trimmed. rewrite (rstrip_last_nonspace _ Hne), andb_true_r.
  destruct t5 as [|x t5']; [discriminate Hf5|].
  simpl in Hf5 |- *. destruct (rstrip t5'); [|exact Hf5].
  apply negb_true_iff in Hf5. rewrite Hf5. simpl. rewrite Hf5. reflexivity.
Qed.

End FieldsFacts.

(** C6. A line of the raw catalog gives an entry exactly when it is made
    of five fields separated by white space: four words (maximal runs
    without white space) and, as the fifth, the rest of the line without
    the white space around it, which may itself contain white space (the
    split is cut off after four cuts).  The entry takes its code from the
    2nd field, its short description from the 4th and its long description
    from the 5th; the 1st and the 3rd are dropped.  In terms of the code:
    the max-4 split of the stripped line has 5 items, and it never has
    more.  Any other line gives nothing, the loop is total, and the
    entries come in the order of the lines. *)
Theorem parse_entries_five_fields (lines : list string) :
  parse_entries lines =
    flat_map
      (fun line =>
         match PyStr.split 4 (PyStr.strip line) with
         | [_; t2; _; t4; t5] =>
             [mkEntry t2 (PyStr.strip t4) (PyStr.strip t5)]
         | _ => []
         end) lines
  /\ (forall line,
        (exists e, entry_of_line line = Some e)
        <-> List.length (PyStr.split 4 (PyStr.strip line)) = 5%nat)
  /\ (forall line, (List.length (PyStr.split 4 (PyStr.strip line)) <= 5)%nat)
  /\ (forall line e,
        entry_of_line line = Some e <-> Fields.five_fields line e)
  /\ (forall e,
        In e (parse_entries lines)
        <-> exists line, In line lines /\ Fields.five_fields line e).
Proof.
  assert (Hloop : parse_entries lines =
                  flat_map (fun line => match entry_of_line line with
                                        | Some e => [e]
                                        | None => []
                                        end) lines).
  { unfold parse_entries. rewrite parse_loop_eq. reflexivity. }
  assert (Hff : forall line e,
             entry_of_line line = Some e <-> Fields.five_fields line e).
  { intros line e. split;
      [apply FieldsFacts.entry_five_fields|apply FieldsFacts.five_fields_entry]. }
  split; [|split; [|split; [|split]]].
  - rewrite Hloop. apply flat_map_ext. intros line. rewrite entry_of_line_eq.
    destruct (PyStr.split 4 (PyStr.strip line))
      as [|t1 [|t2 [|t3 [|t4 [|t5 [|t6 l]]]]]]; reflexivity.
  - intros line. rewrite entry_of_line_eq.
    destruct (PyStr.split 4 (PyStr.strip line))
      as [|t1 [|t2 [|t3 [|t4 [|t5 [|t6 l]]]]]]; cbn [List.length];
      (split; [intros [e He]; try discriminate He
              |intros H; try discriminate H]).
    + reflexivity.
    + eexists; reflexivity.
  - intros line. apply PyStrFacts.split_length_le.
  - exact Hff.
  - intros e. rewrite Hloop, in_flat_map. split.
    + intros (line & Hin & He). exists line. split; [exact Hin|].
      apply Hff. destruct (entry_of_line line) as [e'|]; [|destruct He].
      destruct He as [->|[]]. reflexivity.
    + intros (line & Hin & He). exists line. split; [exact Hin|].
      apply Hff in He. rewrite He. left. reflexivity.
Qed.

Lemma parse_entries_five_fields_witness :
  Fields.five_fields Scenarios.ragged_line Scenarios.ragged_entry
  /\ (forall e, ~ Fields.five_fields Scenarios.short_line e)
  /\ parse_entries [Scenarios.short_line; Scenarios.ragged_line]
     = [Scenarios.ragged_entry].
Proof.
  destruct (parse_entries_five_fields
              [Scenarios.short_line; Scenarios.ragged_line])
    as (Hmap & _ & _ & Hff & _).
  split; [apply Hff; vm_compute; reflexivity|].
  split.
  - intros e He. apply Hff in He. vm_compute in He. discriminate He.
  - rewrite Hmap. vm_compute. reflexivity.
Defined.

(** C7, as amended. The chunk text of an entry is
    ["ICD Code: {code}. Description: {long_description}"]: after
    [setup_icd10_data] the chunk file holds this text for every entry of
    the catalog, in order, next to the codes and the long descriptions;
    and [create_embedding_index] stores what the encoder returns for this
    list of texts. *)
Theorem setup_chunk_texts
    (SentenceTransformer : string -> result Embedder)
    (w : World) (lines : list string) :
  codes_txt w = Holds lines ->
  let w' := snd (setup_icd10_data w) in
  let chunks :=
    map (fun e => ("ICD Code: " ++ code e ++ ". Description: "
                   ++ long_description e)%string) (parse_entries lines) in
  fst (setup_icd10_data w) = Returns true
  /\ icd_chunks_3 w' = Holds chunks
  /\ icd_codes_3 w' = Holds (map code (parse_entries lines))
  /\ icd_descriptions_3 w' = Holds (map long_description (parse_entries lines))
  /\ (forall embedder embeddings v index,
        SentenceTransformer EMBEDDING_MODEL_NAME = Ok embedder ->
        encode embedder chunks = Ok embeddings ->
        row0 embeddings = Ok v ->
        index_add {| dim := List.length v; xb := [] |} embeddings = Ok index ->
        icd10_index_3 (snd (create_embedding_index SentenceTransformer w'))
        = Holds index).
Proof.
  intros Hw w' chunks.
  assert (Hrun : setup_icd10_data w
                 = (Returns true,
                    mkWorld (codes_txt w) (Holds chunks)
                      (Holds (map code (parse_entries lines)))
                      (Holds (map long_description (parse_entries lines)))
                      (icd10_index_3 w)
                      (stdout w ++ [Line "ICD-10 metadata processed."]))).
  { destruct w; cbn [codes_txt] in Hw; subst. reflexivity. }
  subst w'. rewrite Hrun. cbn [fst snd].
  repeat split.
  intros embedder embeddings v index HST Henc Hrow Hadd.
  unfold create_embedding_index, IOMonad.bind, IOMonad.get, IOMonad.lift.
  cbn [icd_chunks_3 open_read IOMonad.print IOMonad.emit].
  rewrite HST. cbn [encode]. 
  cbn [icd_chunks_3]. rewrite Henc, Hrow, Hadd. reflexivity.
Qed.

Lemma setup_chunk_texts_witness :
  codes_txt Reference.fresh_world = Holds Reference.demo_lines
  /\ icd_chunks_3 (snd (setup_icd10_data Reference.fresh_world))
     = Holds ["ICD Code: I219. Description: Acute myocardial infarction, unspecified";
              "ICD Code: J111. Description: Influenza with other respiratory manifestations";
              "ICD Code: E119. Description: Type 2 diabetes mellitus without complications";
              "ICD Code: A000. Description: Cholera due to Vibrio cholerae"].
Proof.
  split; [reflexivity|].
  exact (proj1 (proj2 (setup_chunk_texts Reference.SentenceTransformer
                         Reference.fresh_world Reference.demo_lines eq_refl))).
Defined.

(** C7, as the specification words it, fails: the text written for the
    entry of code [A000] starts with ["ICD Code: "], not with ["Code: "]. *)
Lemma chunk_text_differs_from_spec :
  chunk_text (mkEntry "A000" "Cholera" "Cholera due to Vibrio cholerae")
  <> spec_chunk_text (mkEntry "A000" "Cholera" "Cholera due to Vibrio cholerae").
Proof. vm_compute. discriminate. Qed.

(* ===================================================================== *)
(** ** Step 2: the index of an empty catalog *)
(* ===================================================================== *)

(** C8, as amended. With no chunk text, [create_embedding_index] does not
    return: it raises, and no index file is written.  When the model loads
    and the encoder returns no vector for no text, the exception is the
    [IndexError] of [embeddings[0]]. *)
Theorem create_embedding_index_empty
    (SentenceTransformer : string -> result Embedder) (w : World) :
  icd_chunks_3 w = Holds [] ->
  (forall embedder embeddings,
      SentenceTransformer EMBEDDING_MODEL_NAME = Ok embedder ->
      encode embedder [] = Ok embeddings -> embeddings = []) ->
  exists e,
    fst (create_embedding_index SentenceTransformer w) = Raises e
    /\ icd10_index_3 (snd (create_embedding_index SentenceTransformer w))
       = icd10_index_3 w
    /\ (forall embedder,
          SentenceTransformer EMBEDDING_MODEL_NAME = Ok embedder ->
          encode embedder [] = Ok [] -> e = numpy_IndexError).
Proof.
  intros Hw Hlen. destruct w as [ct ch co de ix out].
  cbn [icd_chunks_3] in Hw; subst ch.
  unfold create_embedding_index, IOMonad.bind, IOMonad.get, IOMonad.lift.
  cbn [icd_chunks_3 open_read IOMonad.print IOMonad.emit icd10_index_3].
  destruct (SentenceTransformer EMBEDDING_MODEL_NAME) as [embedder|e] eqn:HST.
  - cbn [icd_chunks_3 icd10_index_3 codes_txt icd_codes_3 icd_descriptions_3 stdout].
    destruct (encode embedder []) as [embeddings|e] eqn:Henc.
    + rewrite (Hlen embedder embeddings eq_refl Henc). cbn [row0].
      exists numpy_IndexError. repeat split.
    + exists e. repeat split. intros emb' Heq. injection Heq as <-.
      rewrite Henc. discriminate.
  - exists e. repeat split. intros emb' Heq. discriminate.
Qed.

Lemma create_embedding_index_empty_witness :
  icd_chunks_3 Reference.empty_catalog_world = Holds []
  /\ fst (create_embedding_index Reference.SentenceTransformer
            Reference.empty_catalog_world) = Raises numpy_IndexError.
Proof.
  split; [reflexivity|].
  destruct (create_embedding_index_empty Reference.SentenceTransformer
              Reference.empty_catalog_world eq_refl) as (e & Hrun & _ & He).
  - intros embedder embeddings HST Henc.
    injection HST as <-. injection Henc as <-. reflexivity.
  - rewrite Hrun. f_equal. apply (He Reference.toy_embedder); reflexivity.
Defined.

(** C8, as the specification words it, fails: on the empty catalog the
    exception raised is not an [EmptyCatalogError]. *)
Lemma empty_catalog_not_EmptyCatalogError :
  ~ raises_EmptyCatalogError
      (fst (create_embedding_index Reference.SentenceTransformer
              Reference.empty_catalog_world)).
Proof. intros [msg H]. vm_compute in H. discriminate H. Qed.

(* ===================================================================== *)
(** ** Step 3: the loop over the diagnoses *)
(* ===================================================================== *)

(** Inverts [bind c k = Ok r]: every step of the chain returned. *)
Ltac invert_binds H :=
  repeat match type of H with
    | bind ?c _ = Ok _ =>
        let E := fresh "E" in
        destruct c eqn:E; cbn [bind] in H; [|discriminate H]
    | (let '(_, _) := ?p in _) = Ok _ => destruct p
    end.

Lemma getitem_nat {A} (l : list A) (k : nat) (x : A) :
  nth_error l k = Some x -> getitem l (Z.of_nat k) = Ok x.
Proof.
  intros H. unfold getitem.
  assert (Hk : (k < List.length l)%nat) by (apply nth_error_Some; congruence).
  destruct (Z.ltb_spec (Z.of_nat k) 0); [lia|].
  destruct (Z.ltb_spec (Z.of_nat k) 0); [lia|].
  destruct (Z.leb_spec (Z.of_nat (List.length l)) (Z.of_nat k)); [lia|].
  cbn [orb]. rewrite Nat2Z.id, H. reflexivity.
Qed.

Lemma getitem_out_of_range {A} (l : list A) (i : Z) :
  (i < - Z.of_nat (List.length l) \/ Z.of_nat (List.length l) <= i)%Z ->
  getitem l i = Raise list_IndexError.
Proof.
  intros H. unfold getitem.
  destruct (Z.ltb_spec i 0).
  - destruct (Z.ltb_spec (i + Z.of_nat (List.length l)) 0); [reflexivity|lia].
  - destruct (Z.ltb_spec i 0); [lia|].
    destruct (Z.leb_spec (Z.of_nat (List.length l)) i); [reflexivity|lia].
Qed.

(** A position from [-n] to [n - 1] reads the item at that position
    modulo [n]. *)
Lemma getitem_in_range {A} (l : list A) (i : Z) :
  (- Z.of_nat (List.length l) <= i < Z.of_nat (List.length l))%Z ->
  exists x,
    getitem l i = Ok x
    /\ nth_error l (Z.to_nat (i mod Z.of_nat (List.length l))) = Some x.
Proof.
  intros H. unfold getitem. set (n := Z.of_nat (List.length l)) in *.
  assert (Hmod : (i mod n)%Z = if (i <? 0)%Z then (i + n)%Z else i).
  { destruct (Z.ltb_spec i 0).
    - symmetry. apply Z.mod_unique with (q := (-1)%Z); lia.
    - apply Z.mod_small. lia. }
  rewrite Hmod.
  set (j := if (i <? 0)%Z then (i + n)%Z else i).
  assert (Hj : (0 <= j < n)%Z) by (unfold j; destruct (Z.ltb_spec i 0); lia).
  destruct (Z.ltb_spec j 0); [lia|].
  destruct (Z.leb_spec n j); [lia|]. cbn [orb].
  destruct (nth_error l (Z.to_nat j)) as [x|] eqn:E.
  - exists x. split; reflexivity.
  - apply nth_error_None in E. unfold n in Hj. lia.
Qed.

Section MatcherFacts.

Variable token_sort_ratio : string -> string -> Q.
Variable faiss_search :
  IndexFlatL2 -> list vector -> result (Distances * Labels).
Variable float_str : Q -> string.

Local Notation "'match1'" :=
  (match_diagnosis token_sort_ratio faiss_search float_str).
Local Notation "'item1'" := (item_result token_sort_ratio faiss_search float_str).
Local Notation "'loop1'" := (map_loop token_sort_ratio faiss_search float_str).

Lemma keyword_match_original a diag kr r :
  keyword_match float_str a diag kr = Ok r -> original_diagnosis r = diag.
Proof.
  destruct kr as [[m score] idx]. unfold keyword_match. intros H.
  invert_binds H. injection H as <-. reflexivity.
Qed.

Lemma semantic_match_original a diag r :
  semantic_match faiss_search a diag = Ok r -> original_diagnosis r = diag.
Proof.
  unfold semantic_match. intros H.
  invert_binds H. injection H as <-. reflexivity.
Qed.

Lemma item_result_original a diag :
  original_diagnosis (item1 a diag) = diag.
Proof.
  unfold item_result, match_diagnosis.
  destruct (extractOne _ _ _ _) as [kr|].
  - destruct (keyword_match float_str a diag kr) eqn:E; [|reflexivity].
    apply (keyword_match_original _ _ _ _ E).
  - destruct (semantic_match faiss_search a diag) eqn:E; [|reflexivity].
    apply (semantic_match_original _ _ _ E).
Qed.

(** The loop appends one result per diagnosis, each computed from that
    diagnosis alone. *)
Lemma map_loop_from a diagnoses :
  forall results,
    fold_left (loop_body token_sort_ratio faiss_search float_str a)
      diagnoses results
    = results ++ map (item1 a) diagnoses.
Proof.
  induction diagnoses as [|d ds IH]; intros results; simpl.
  - symmetry; apply app_nil_r.
  - rewrite IH. unfold loop_body, item_result.
    destruct (match1 a d);
      rewrite <- app_assoc; reflexivity.
Qed.

Lemma map_loop_eq a diagnoses :
  loop1 a diagnoses = map (item1 a) diagnoses.
Proof. apply (map_loop_from a diagnoses []). Qed.

Lemma map_loop_original a diagnoses :
  map original_diagnosis (loop1 a diagnoses) = diagnoses.
Proof.
  rewrite map_loop_eq, map_map.
  induction diagnoses as [|d ds IH]; simpl; [reflexivity|].
  rewrite item_result_original, IH. reflexivity.
Qed.

End MatcherFacts.

Section MatcherClaims.

Variable token_sort_ratio : string -> string -> Q.
Variable faiss_search :
  IndexFlatL2 -> list vector -> result (Distances * Labels).
Variable float_str : Q -> string.

Local Notation "'match1'" :=
  (match_diagnosis token_sort_ratio faiss_search float_str).
Local Notation "'item1'" := (item_result token_sort_ratio faiss_search float_str).
Local Notation "'loop1'" := (map_loop token_sort_ratio faiss_search float_str).

(** C1. For a scorer with values up to 100, the lexical stage either
    finds no description scoring 85 or more, and then the diagnosis goes
    to the semantic stage; or it selects a description of largest score,
    that score being at least 85, and then the result is that of the
    keyword branch alone, whatever the encoder and the index are: the
    code at the position of the description, confidence [High] from 95
    on and [Medium] below, no alternative. *)
Theorem lexical_stage_policy (a : Assets) (diag : string) :
  (forall q c, token_sort_ratio q c <= 100) ->
  match extractOne token_sort_ratio diag (icd_descs a) 85 with
  | Some (c, s, k) =>
      nth_error (icd_descs a) k = Some c
      /\ s = token_sort_ratio diag c
      /\ 85 <= s
      /\ (forall c', In c' (icd_descs a) -> token_sort_ratio diag c' <= s)
      /\ match1 a diag = keyword_match float_str a diag (c, s, k)
      /\ (forall faiss_search' a',
            icd_codes a' = icd_codes a -> icd_descs a' = icd_descs a ->
            match_diagnosis token_sort_ratio faiss_search' float_str a' diag
            = match1 a diag)
      /\ (forall code,
            nth_error (icd_codes a) k = Some code ->
            exists r,
              match1 a diag = Ok r
              /\ matched_icd_code r = Some code
              /\ matched_description r = Some c
              /\ (95 <= s -> confidence_level r = "High")
              /\ (s < 95 -> confidence_level r = "Medium")
              /\ alternative_codes r = EmptyString)
  | None =>
      (forall c, In c (icd_descs a) -> token_sort_ratio diag c < 85)
      /\ match1 a diag = semantic_match faiss_search a diag
  end.
Proof.
  intros Hscore.
  assert (Hpos : 0 < 85) by reflexivity.
  pose proof (extractOne_spec token_sort_ratio Hscore 85 Hpos diag (icd_descs a))
    as Hspec.
  destruct (extractOne token_sort_ratio diag (icd_descs a) 85)
    as [[[c s] k]|] eqn:Hex.
  - destruct Hspec as (Hnth & Hs & Hcut & Hmax & _).
    repeat split; try assumption.
    + unfold match_diagnosis. rewrite Hex. reflexivity.
    + intros fs' a' Hcodes Hdescs. unfold match_diagnosis.
      rewrite Hdescs, Hex. unfold keyword_match. rewrite Hcodes, Hdescs.
      reflexivity.
    + intros code Hcode. unfold match_diagnosis. rewrite Hex.
      unfold keyword_match.
      rewrite (getitem_nat _ _ _ Hcode), (getitem_nat _ _ _ Hnth).
      cbn [bind]. eexists. split; [reflexivity|].
      cbn [matched_icd_code matched_description confidence_level
           alternative_codes].
      repeat split.
      * intros H95. rewrite (Qle_bool_true _ _ H95). reflexivity.
      * intros H95. rewrite (Qle_bool_false _ _ H95). reflexivity.
  - split; [exact Hspec|]. unfold match_diagnosis. rewrite Hex. reflexivity.
Qed.

(** C2, as amended. When the lexical stage finds nothing, the confidence
    of the result is never [High]; and when the encoder and the search
    return and the three positions found are positions of the code and
    description lists, the result carries the code and the description at
    the first position found, with confidence [Low] exactly when the first
    distance exceeds the [float32] nearest to 0.8 (13421773/2^24) and
    [Medium] exactly when it does not.  For a [float32] distance other
    than that value, this is the test of the distance against 0.8. *)
Theorem semantic_stage_policy (a : Assets) (diag : string) :
  extractOne token_sort_ratio diag (icd_descs a) 85 = None ->
  confidence_level (item1 a diag) <> "High"
  /\ forall emb D I_ I0 D0,
      encode (embedder a) [diag] = Ok emb ->
      faiss_search (index a) emb = Ok (D, I_) ->
      row0 I_ = Ok I0 -> row0 D = Ok D0 ->
      List.length (icd_descs a) = List.length (icd_codes a) ->
      let n := Z.of_nat (List.length (icd_codes a)) in
      (- n <= col0 I0 < n)%Z -> (- n <= col1 I0 < n)%Z ->
      (- n <= col2 I0 < n)%Z ->
      exists code desc r,
        nth_error (icd_codes a) (Z.to_nat (col0 I0 mod n)) = Some code
        /\ nth_error (icd_descs a) (Z.to_nat (col0 I0 mod n)) = Some desc
        /\ match1 a diag = Ok r
        /\ matched_icd_code r = Some code
        /\ matched_description r = Some desc
        /\ (confidence_level r = "Low" <-> float32_0_8 < col0 D0)
        /\ (confidence_level r = "Medium" <-> col0 D0 <= float32_0_8)
        /\ (on_float32_grid (col0 D0) -> ~ col0 D0 == float32_0_8 ->
            (confidence_level r = "Low" <-> 8 # 10 < col0 D0)).
Proof.
  intros Hex. split.
  - unfold item_result, match_diagnosis. rewrite Hex.
    destruct (semantic_match faiss_search a diag) as [r|e] eqn:E.
    + unfold semantic_match in E. invert_binds E. injection E as <-.
      cbn [confidence_level].
      destruct (Qlt_bool float32_0_8 (col0 _)); discriminate.
    + cbn [error_result confidence_level]. discriminate.
  - intros emb D I_ I0 D0 Henc Hsearch HI HD Hlen n H0 H1 H2.
    destruct (getitem_in_range (icd_codes a) (col0 I0) H0)
      as (code & Hcode & Hncode).
    destruct (getitem_in_range (icd_codes a) (col1 I0) H1) as (c1 & Hc1 & _).
    destruct (getitem_in_range (icd_codes a) (col2 I0) H2) as (c2 & Hc2 & _).
    assert (Hd : forall z, (- n <= z < n)%Z ->
               exists x, getitem (icd_descs a) z = Ok x
                 /\ nth_error (icd_descs a) (Z.to_nat (z mod n)) = Some x).
    { intros z Hz. unfold n. rewrite <- Hlen. apply getitem_in_range.
      rewrite Hlen. exact Hz. }
    destruct (Hd _ H0) as (desc & Hdesc & Hndesc).
    destruct (Hd _ H1) as (d1 & Hd1 & _).
    destruct (Hd _ H2) as (d2 & Hd2 & _).
    unfold match_diagnosis. rewrite Hex. unfold semantic_match.
    rewrite Henc. cbn [bind]. rewrite Hsearch. cbn [bind].
    rewrite HI. cbn [bind]. rewrite Hcode, Hdesc. cbn [bind].
    rewrite HD. cbn [bind]. rewrite Hc1, Hd1, Hc2, Hd2. cbn [bind].
    exists code, desc. eexists.
    split; [exact Hncode|]. split; [exact Hndesc|]. split; [reflexivity|].
    cbn [matched_icd_code matched_description confidence_level].
    split; [reflexivity|]. split; [reflexivity|].
    assert (Hlow : (if Qlt_bool float32_0_8 (col0 D0) then "Low" else "Medium")
                   = "Low" <-> float32_0_8 < col0 D0).
    { destruct (Qlt_boolP float32_0_8 (col0 D0)) as [H|H]; split;
        intros H'; try reflexivity; try discriminate H'; try assumption; lra. }
    split; [exact Hlow|]. split.
    + destruct (Qlt_boolP float32_0_8 (col0 D0)) as [H|H]; split;
        intros H'; try reflexivity; try discriminate H'; try assumption; lra.
    + intros Hgrid Hne. rewrite Hlow. unfold float32_0_8 in *.
      destruct Hgrid as [Hsmall|[m Hm]].
      * split; intros H; lra.
      * rewrite Hm in Hne |- *. unfold Qlt, Qeq in *. cbn in *. lia.
Qed.

(** C3. A result of the keyword branch has no alternative.  A result of
    the semantic branch lists the second and the third position found by
    the search, in this order, each as its code followed by its distance
    to three decimals; the distances are in ascending order when the
    rows of the search are. *)
Theorem alternative_codes_policy (a : Assets) (diag : string)
    (r : MatchResult) :
  match1 a diag = Ok r ->
  match extractOne token_sort_ratio diag (icd_descs a) 85 with
  | Some _ => alternative_codes r = EmptyString
  | None =>
      exists emb D I_ I0 D0 c1 c2,
        encode (embedder a) [diag] = Ok emb
        /\ faiss_search (index a) emb = Ok (D, I_)
        /\ row0 I_ = Ok I0 /\ row0 D = Ok D0
        /\ getitem (icd_codes a) (col1 I0) = Ok c1
        /\ getitem (icd_codes a) (col2 I0) = Ok c2
        /\ alternative_codes r
           = (c1 ++ " (distance: " ++ Fmt.format_3f (col1 D0) ++ "), "
              ++ c2 ++ " (distance: " ++ Fmt.format_3f (col2 D0) ++ ")")%string
        /\ (ascending_search faiss_search -> col1 D0 <= col2 D0)
  end.
Proof.
  unfold match_diagnosis.
  destruct (extractOne token_sort_ratio diag (icd_descs a) 85)
    as [[[c s] k]|].
  - unfold keyword_match. intros H. invert_binds H.
    injection H as <-. reflexivity.
  - unfold semantic_match. intros H.
    destruct (encode (embedder a) [diag]) as [emb|] eqn:Henc;
      cbn [bind] in H; [|discriminate H].
    destruct (faiss_search (index a) emb) as [[D I_]|] eqn:Hs;
      cbn [bind] in H; [|discriminate H].
    destruct (row0 I_) as [I0|] eqn:HI; cbn [bind] in H; [|discriminate H].
    destruct (getitem (icd_codes a) (col0 I0)); cbn [bind] in H;
      [|discriminate H].
    destruct (getitem (icd_descs a) (col0 I0)); cbn [bind] in H;
      [|discriminate H].
    destruct (row0 D) as [D0|] eqn:HD; cbn [bind] in H; [|discriminate H].
    destruct (getitem (icd_codes a) (col1 I0)) as [c1|] eqn:Hc1;
      cbn [bind] in H; [|discriminate H].
    destruct (getitem (icd_descs a) (col1 I0)); cbn [bind] in H;
      [|discriminate H].
    destruct (getitem (icd_codes a) (col2 I0)) as [c2|] eqn:Hc2;
      cbn [bind] in H; [|discriminate H].
    destruct (getitem (icd_descs a) (col2 I0)); cbn [bind] in H;
      [|discriminate H].
    injection H as <-.
    exists emb, D, I_, I0, D0, c1, c2. repeat split; try assumption.
    intros Hasc. specialize (Hasc _ _ _ _ Hs).
    destruct D as [|row D']; [discriminate HD|].
    injection HD as ->. inversion Hasc; subst. tauto.
Qed.

(** C4. When the processing of the diagnosis at position [i] raises
    [e], the loop still returns one result per diagnosis; the result at
    [i] has no code, no description, confidence [Error] and a
    justification that carries the message of [e]; the result at any
    other position is the one its diagnosis gets when processed on its
    own, and it is the same in every list that differs at position [i]
    only. *)
Theorem per_item_failure_isolated (a : Assets) (diagnoses : list string)
    (i : nat) (diag : string) (e : exn) :
  nth_error diagnoses i = Some diag ->
  match1 a diag = Raise e ->
  List.length (loop1 a diagnoses) = List.length diagnoses
  /\ nth_error (loop1 a diagnoses) i
     = Some (mkResult diag None None "Error"
               ("Error processing diagnosis: " ++ exn_str e)%string
               EmptyString)
  /\ (forall j dj,
        j <> i -> nth_error diagnoses j = Some dj ->
        nth_error (loop1 a diagnoses) j = nth_error (loop1 a [dj]) 0)
  /\ (forall diagnoses',
        List.length diagnoses' = List.length diagnoses ->
        (forall j, j <> i -> nth_error diagnoses' j = nth_error diagnoses j) ->
        forall j, j <> i ->
          nth_error (loop1 a diagnoses') j = nth_error (loop1 a diagnoses) j).
Proof.
  intros Hi Hraise.
  rewrite (map_loop_eq token_sort_ratio faiss_search float_str a diagnoses).
  repeat split.
  - apply length_map.
  - rewrite nth_error_map, Hi. cbn [option_map]. unfold item_result.
    rewrite Hraise. reflexivity.
  - intros j dj _ Hj. rewrite nth_error_map, Hj.
    rewrite (map_loop_eq token_sort_ratio faiss_search float_str a [dj]).
    reflexivity.
  - intros diagnoses' _ Hsame j Hj.
    rewrite (map_loop_eq token_sort_ratio faiss_search float_str a diagnoses').
    rewrite !nth_error_map, (Hsame j Hj). reflexivity.
Qed.

End MatcherClaims.

(** C2, as the specification words it, fails: a nearest distance equal to
    the [float32] nearest to 0.8 is above 0.8, and the result is not
    [Low]. *)
Lemma float32_0_8_is_not_Low :
  exists r,
    match_diagnosis Reference.token_sort_ratio Scenarios.threshold_search
      Reference.float_str Reference.demo_assets "heart attack" = Ok r
    /\ 8 # 10 < 13421773 # 16777216
    /\ confidence_level r
       <> spec_semantic_confidence (13421773 # 16777216).
Proof.
  eexists. split; [vm_compute; reflexivity|].
  split; [reflexivity|]. vm_compute. discriminate.
Qed.


(* ===================================================================== *)
(** ** [map_diagnoses] and [main] *)
(* ===================================================================== *)

Section ScriptClaims.

Variable SentenceTransformer : string -> result Embedder.
Variable token_sort_ratio : string -> string -> Q.
Variable faiss_search :
  IndexFlatL2 -> list vector -> result (Distances * Labels).
Variable float_str : Q -> string.

Local Notation "'map_diagnoses1'" :=
  (map_diagnoses SentenceTransformer token_sort_ratio faiss_search float_str).
Local Notation "'main1'" :=
  (main SentenceTransformer token_sort_ratio faiss_search float_str).
Local Notation "'item1'" := (item_result token_sort_ratio faiss_search float_str).
Local Notation "'loop1'" := (map_loop token_sort_ratio faiss_search float_str).

Lemma map_diagnoses_loaded input w a :
  load_assets SentenceTransformer w = Ok a ->
  map_diagnoses1 input w = (Returns (loop1 a (diagnoses_list_of input)), w).
Proof.
  intros H. unfold map_diagnoses, IOMonad.bind, IOMonad.get.
  rewrite H. reflexivity.
Qed.

Lemma map_diagnoses_unloaded input w e :
  load_assets SentenceTransformer w = Raise e ->
  map_diagnoses1 input w
  = (Returns [],
     mkWorld (codes_txt w) (icd_chunks_3 w) (icd_codes_3 w)
       (icd_descriptions_3 w) (icd10_index_3 w)
       (stdout w ++ [Line ("Error loading assets: " ++ exn_str e)%string])).
Proof.
  intros H. unfold map_diagnoses, IOMonad.bind, IOMonad.get.
  rewrite H. reflexivity.
Qed.

Lemma loading_raises_load_assets w :
  loading_raises SentenceTransformer w ->
  exists e, load_assets SentenceTransformer w = Raise e.
Proof.
  unfold loading_raises, load_assets.
  destruct (icd_chunks_3 w) as [|e1|c1]; cbn [holds open_read bind];
    try (intros _; eexists; reflexivity).
  destruct (icd_codes_3 w) as [|e2|c2]; cbn [holds open_read bind];
    try (intros _; eexists; reflexivity).
  destruct (icd_descriptions_3 w) as [|e3|c3]; cbn [holds open_read bind];
    try (intros _; eexists; reflexivity).
  destruct (icd10_index_3 w) as [|e4|c4]; cbn [holds read_index bind];
    try (intros _; eexists; reflexivity).
  intros [H|[H|[H|[H|[e H]]]]]; try discriminate H.
  rewrite H. eexists; reflexivity.
Qed.

(** What [main] does once the arguments are there and the system is
    initialized. *)
Lemma main_initialized argv w w1 :
  (2 <= List.length argv)%nat ->
  initialize_system SentenceTransformer w = (Returns true, w1) ->
  main1 argv w =
    let (o, w2) := map_diagnoses1 (a_list (tl argv)) w1 in
    match o with
    | Returns results =>
        IOMonad.emit (Json (mkReport (List.length (tl argv)) results)) w2
    | Raises e => (Raises e, w2)
    | Exits n => (Exits n, w2)
    end.
Proof.
  intros Hargv Hinit. unfold main, IOMonad.bind.
  destruct (Nat.ltb_spec (List.length argv) 2) as [H|H]; [lia|].
  cbn [IOMonad.ret]. rewrite Hinit. cbn [negb IOMonad.ret]. reflexivity.
Qed.

(** C9, as amended. [map_diagnoses] itself turns a single diagnosis
    string into a one-element list: called on a string it behaves as on
    the list of that string, and with the assets loaded it returns the
    one result of that diagnosis. *)
Theorem map_diagnoses_wraps_single_string (s : string) (w : World) :
  diagnoses_list_of (a_str s) = [s]
  /\ map_diagnoses1 (a_str s) w = map_diagnoses1 (a_list [s]) w
  /\ (forall a,
        load_assets SentenceTransformer w = Ok a ->
        fst (map_diagnoses1 (a_str s) w) = Returns [item1 a s]).
Proof.
  split; [reflexivity|]. split; [reflexivity|].
  intros a Ha. rewrite (map_diagnoses_loaded _ _ _ Ha). cbn [fst].
  rewrite (map_loop_eq token_sort_ratio faiss_search float_str). reflexivity.
Qed.

(** C10. When one of the five loads of [map_diagnoses] raises, the
    function returns the empty list for any input; and a run of [main]
    that passed the initialization then prints a report whose
    [total_processed] is the number of diagnoses given and whose results
    are empty, and ends with exit status 0. *)
Theorem load_failure_empty_results (argv : list string) (w w1 : World) :
  (2 <= List.length argv)%nat ->
  initialize_system SentenceTransformer w = (Returns true, w1) ->
  loading_raises SentenceTransformer w1 ->
  (forall input, fst (map_diagnoses1 input w1) = Returns [])
  /\ exit_status SentenceTransformer token_sort_ratio faiss_search float_str
       argv w = 0%Z
  /\ exists e,
       load_assets SentenceTransformer w1 = Raise e
       /\ stdout (snd (main1 argv w))
          = stdout w1
            ++ [Line ("Error loading assets: " ++ exn_str e)%string;
                Json (mkReport (List.length (tl argv)) [])].
Proof.
  intros Hargv Hinit Hload.
  destruct (loading_raises_load_assets w1 Hload) as [e He].
  split; [|split].
  - intros input. rewrite (map_diagnoses_unloaded _ _ _ He). reflexivity.
  - unfold exit_status. rewrite (main_initialized _ _ _ Hargv Hinit).
    rewrite (map_diagnoses_unloaded _ _ _ He). reflexivity.
  - exists e. split; [exact He|].
    rewrite (main_initialized _ _ _ Hargv Hinit).
    rewrite (map_diagnoses_unloaded _ _ _ He).
    cbn [IOMonad.emit snd stdout]. rewrite <- app_assoc. reflexivity.
Qed.

(** C5. A run of [main] that returns ends by printing one report: its
    [total_processed] is the number of diagnoses on the command line,
    every result it holds at a position [i] is the result of the
    diagnosis at position [i], and when the assets are loaded the
    results cover the diagnoses one for one, in order. *)
Theorem batch_report_order (argv : list string) (w w' : World) :
  main1 argv w = (Returns tt, w') ->
  exists out r,
    stdout w' = out ++ [Json r]
    /\ total_processed r = List.length (tl argv)
    /\ (forall i res,
          nth_error (results r) i = Some res ->
          nth_error (tl argv) i = Some (original_diagnosis res))
    /\ (forall w1 a,
          initialize_system SentenceTransformer w = (Returns true, w1) ->
          load_assets SentenceTransformer w1 = Ok a ->
          map original_diagnosis (results r) = tl argv).
Proof.
  intros Hmain.
  destruct (Nat.ltb_spec (List.length argv) 2) as [Hargv|Hargv].
  { unfold main, IOMonad.bind in Hmain.
    destruct (Nat.ltb_spec (List.length argv) 2) as [H|H]; [|lia].
    discriminate Hmain. }
  destruct (initialize_system SentenceTransformer w) as [o w1] eqn:Hinit.
  assert (Ho : o = Returns true).
  { unfold main, IOMonad.bind in Hmain.
    destruct (Nat.ltb_spec (List.length argv) 2) as [H|H]; [lia|].
    cbn [IOMonad.ret] in Hmain. rewrite Hinit in Hmain.
    destruct o as [[|]| |]; try discriminate Hmain. reflexivity. }
  subst o. rewrite (main_initialized _ _ _ Hargv Hinit) in Hmain.
  destruct (load_assets SentenceTransformer w1) as [a|e] eqn:Hload.
  - rewrite (map_diagnoses_loaded _ _ _ Hload) in Hmain.
    cbn [diagnoses_list_of IOMonad.emit] in Hmain.
    injection Hmain as <-. cbn [stdout].
    exists (stdout w1), (mkReport (List.length (tl argv)) (loop1 a (tl argv))).
    cbn [total_processed results]. repeat split.
    + intros i res Hres.
      pose proof (map_loop_original token_sort_ratio faiss_search float_str
                    a (tl argv)) as Horig.
      rewrite <- Horig at 1. rewrite nth_error_map, Hres. reflexivity.
    + intros w1' a' Hw1' _.
      apply (map_loop_original token_sort_ratio faiss_search float_str).
  - rewrite (map_diagnoses_unloaded _ _ _ Hload) in Hmain.
    cbn [IOMonad.emit stdout] in Hmain. injection Hmain as <-. cbn [stdout].
    exists (stdout w1 ++ [Line ("Error loading assets: " ++ exn_str e)%string]),
      (mkReport (List.length (tl argv)) []).
    cbn [total_processed results]. repeat split.
    + intros i res Hres. destruct i; discriminate Hres.
    + intros w1' a' Hw1' Ha'. injection Hw1' as <-. congruence.
Qed.

End ScriptClaims.

(* ===================================================================== *)
(** ** The results at concrete inputs *)
(* ===================================================================== *)

Lemma lexical_stage_policy_witness :
  (forall q c, Reference.token_sort_ratio q c <= 100)
  /\ exists r,
       Reference.demo_match "Cholera due to Vibrio cholera" = Ok r
       /\ matched_icd_code r = Some "A000"
       /\ confidence_level r = "High".
Proof.
  split; [exact ReferenceFacts.token_sort_ratio_le_100|].
  pose proof (lexical_stage_policy Reference.token_sort_ratio
                Reference.faiss_search Reference.float_str
                Reference.demo_assets "Cholera due to Vibrio cholera"
                ReferenceFacts.token_sort_ratio_le_100) as H.
  remember (extractOne Reference.token_sort_ratio
              "Cholera due to Vibrio cholera"
              (icd_descs Reference.demo_assets) 85) as kr eqn:E in H.
  vm_compute in E. subst kr.
  destruct H as (_ & _ & _ & _ & _ & _ & Hok).
  destruct (Hok "A000" eq_refl) as (r & Hr & Hcode & _ & Hhigh & _ & _).
  exists r. split; [exact Hr|]. split; [exact Hcode|].
  apply Hhigh. vm_compute. discriminate.
Defined.

Lemma semantic_stage_policy_witness :
  extractOne Reference.token_sort_ratio "heart attack"
    (icd_descs Reference.demo_assets) 85 = None
  /\ exists r,
       match_diagnosis Reference.token_sort_ratio Reference.far_search
         Reference.float_str Reference.demo_assets "heart attack" = Ok r
       /\ matched_icd_code r = Some "E119"
       /\ confidence_level r = "Low".
Proof.
  assert (E : extractOne Reference.token_sort_ratio "heart attack"
                (icd_descs Reference.demo_assets) 85 = None)
    by (vm_compute; reflexivity).
  split; [exact E|].
  destruct (proj2 (semantic_stage_policy Reference.token_sort_ratio
                     Reference.far_search Reference.float_str
                     Reference.demo_assets "heart attack" E)
              [Reference.toy_vector "heart attack"]
              [(9 # 10, 11 # 10, 13 # 10)] [(2%Z, 0%Z, 3%Z)]
              (2%Z, 0%Z, 3%Z) (9 # 10, 11 # 10, 13 # 10)
              eq_refl eq_refl eq_refl eq_refl eq_refl)
    as (code & desc & r & Hcode & _ & Hr & Hm & _ & Hlow & _).
  - vm_compute. split; [discriminate|reflexivity].
  - vm_compute. split; [discriminate|reflexivity].
  - vm_compute. split; [discriminate|reflexivity].
  - exists r. split; [exact Hr|]. split.
    + rewrite Hm. vm_compute in Hcode. injection Hcode as <-. reflexivity.
    + apply Hlow. reflexivity.
Defined.

Lemma alternative_codes_policy_witness :
  exists r,
    Reference.demo_match "heart attack" = Ok r
    /\ alternative_codes r = "A000 (distance: 0.711), J111 (distance: 0.900)".
Proof.
  destruct (Reference.demo_match "heart attack") as [r|e] eqn:Hr;
    [|vm_compute in Hr; discriminate Hr].
  exists r. split; [reflexivity|].
  pose proof (alternative_codes_policy Reference.token_sort_ratio
                Reference.faiss_search Reference.float_str
                Reference.demo_assets "heart attack" r Hr) as H.
  remember (extractOne Reference.token_sort_ratio "heart attack"
              (icd_descs Reference.demo_assets) 85) as kr eqn:E in H.
  vm_compute in E. subst kr.
  destruct H as (emb & D & I_ & I0 & D0 & c1 & c2
                 & Henc & Hs & HI & HD & Hc1 & Hc2 & Halt & _).
  vm_compute in Henc. injection Henc as <-.
  vm_compute in Hs. injection Hs as <- <-.
  vm_compute in HI. injection HI as <-.
  vm_compute in HD. injection HD as <-.
  vm_compute in Hc1. injection Hc1 as <-.
  vm_compute in Hc2. injection Hc2 as <-.
  rewrite Halt. vm_compute. reflexivity.
Defined.

Lemma per_item_failure_isolated_witness :
  let diagnoses := ["heart attack"; EmptyString; "Cholera due to Vibrio cholera"] in
  let results :=
    map_loop Reference.token_sort_ratio Reference.faiss_search
      Reference.float_str Reference.demo_assets diagnoses in
  nth_error diagnoses 1 = Some EmptyString
  /\ Reference.demo_match EmptyString
     = Raise (Exception "ValueError" "empty text")
  /\ List.length results = 3%nat
  /\ nth_error results 1
     = Some (mkResult EmptyString None None "Error"
               "Error processing diagnosis: empty text" EmptyString)
  /\ option_map confidence_level (nth_error results 0) = Some "Medium"
  /\ option_map confidence_level (nth_error results 2) = Some "High".
Proof.
  intros diagnoses results.
  assert (Hraise : Reference.demo_match EmptyString
                   = Raise (Exception "ValueError" "empty text"))
    by (vm_compute; reflexivity).
  destruct (per_item_failure_isolated Reference.token_sort_ratio
              Reference.faiss_search Reference.float_str
              Reference.demo_assets diagnoses 1 EmptyString
              (Exception "ValueError" "empty text") eq_refl Hraise)
    as (Hlen & Herr & Hown & _).
  split; [reflexivity|]. split; [exact Hraise|].
  split; [exact Hlen|]. split; [exact Herr|]. split.
  - unfold results. rewrite (Hown 0%nat "heart attack"); [|discriminate|reflexivity].
    vm_compute. reflexivity.
  - unfold results.
    rewrite (Hown 2%nat "Cholera due to Vibrio cholera");
      [|discriminate|reflexivity].
    vm_compute. reflexivity.
Defined.

Lemma batch_report_order_witness :
  let argv := ["icd10_mapper.py"; "heart attack"; "Cholera due to Vibrio cholera"] in
  let run :=
    main Reference.SentenceTransformer Reference.token_sort_ratio
      Reference.faiss_search Reference.float_str argv Reference.fresh_world in
  fst run = Returns tt
  /\ exists out r,
       stdout (snd run) = out ++ [Json r]
       /\ total_processed r = 2%nat
       /\ map original_diagnosis (results r)
          = ["heart attack"; "Cholera due to Vibrio cholera"].
Proof.
  intros argv run.
  assert (Hfst : fst run = Returns tt) by (vm_compute; reflexivity).
  split; [exact Hfst|].
  assert (Hrun : run = (Returns tt, snd run))
    by (rewrite <- Hfst; apply surjective_pairing).
  destruct (batch_report_order Reference.SentenceTransformer
              Reference.token_sort_ratio Reference.faiss_search
              Reference.float_str argv Reference.fresh_world (snd run) Hrun)
    as (out & r & Hout & Htotal & _ & Hall).
  exists out, r. split; [exact Hout|]. split; [exact Htotal|].
  apply (Hall (snd (initialize_system Reference.SentenceTransformer
                      Reference.fresh_world))
           (mkAssets (chunks_of Reference.demo_entries)
              (codes_of Reference.demo_entries)
              (descriptions_of Reference.demo_entries)
              Reference.demo_index Reference.toy_embedder));
    vm_compute; reflexivity.
Defined.

Lemma load_failure_empty_results_witness :
  let argv := ["icd10_mapper.py"; "heart attack"; "Cholera due to Vibrio cholera"] in
  (2 <= List.length argv)%nat
  /\ initialize_system Reference.SentenceTransformer Reference.broken_world
     = (Returns true,
        snd (initialize_system Reference.SentenceTransformer
               Reference.broken_world))
  /\ holds (icd_chunks_3
              (snd (initialize_system Reference.SentenceTransformer
                      Reference.broken_world))) = false
  /\ fst (map_diagnoses Reference.SentenceTransformer
            Reference.token_sort_ratio Reference.faiss_search
            Reference.float_str (a_list (tl argv))
            (snd (initialize_system Reference.SentenceTransformer
                    Reference.broken_world))) = Returns []
  /\ exit_status Reference.SentenceTransformer Reference.token_sort_ratio
       Reference.faiss_search Reference.float_str argv Reference.broken_world
     = 0%Z.
Proof.
  intros argv.
  assert (Hargv : (2 <= List.length argv)%nat) by (simpl; lia).
  assert (Hinit : initialize_system Reference.SentenceTransformer
                    Reference.broken_world
                  = (Returns true,
                     snd (initialize_system Reference.SentenceTransformer
                            Reference.broken_world)))
    by (vm_compute; reflexivity).
  assert (Hchunks : holds (icd_chunks_3
                             (snd (initialize_system
                                     Reference.SentenceTransformer
                                     Reference.broken_world))) = false)
    by (vm_compute; reflexivity).
  destruct (load_failure_empty_results Reference.SentenceTransformer
              Reference.token_sort_ratio Reference.faiss_search
              Reference.float_str argv Reference.broken_world _
              Hargv Hinit (or_introl Hchunks))
    as (Hempty & Hexit & _).
  split; [exact Hargv|]. split; [exact Hinit|]. split; [exact Hchunks|].
  split; [apply Hempty|exact Hexit].
Defined.

(** C9, as the specification words it, fails: given the bare string
    ["heart attack"], [map_diagnoses] itself makes the one-element list. *)
Lemma single_string_not_left_to_caller :
  ~ left_to_caller diagnoses_list_of "heart attack".
Proof. intros H. apply H. reflexivity. Qed.


(** A diagnosis equal to a long description of the catalog: score 100,
    confidence [High], no alternative. *)
Example exact_description_is_High :
  Reference.demo_match "Acute myocardial infarction, unspecified"
  = Ok (mkResult "Acute myocardial infarction, unspecified" (Some "I219")
          (Some "Acute myocardial infarction, unspecified") "High"
          "Keyword match with score 100.000/100. Confidence: High. Found similar phrase in ICD description."
          EmptyString).
Proof. vm_compute. reflexivity. Qed.

(** No description close to the diagnosis and neighbours at the distances
    0.9, 1.1 and 1.3: the nearest one is matched with confidence [Low],
    the two others are the alternatives. *)
Example far_neighbours_are_Low :
  match_diagnosis Reference.token_sort_ratio Reference.far_search
    Reference.float_str Reference.demo_assets "heart attack"
  = Ok (mkResult "heart attack" (Some "E119")
          (Some "Type 2 diabetes mellitus without complications") "Low"
          "Semantic match using Sentence-BERT. Distance: 0.900. Confidence: Low. No direct keyword match found above threshold."
          "I219 (distance: 1.100), A000 (distance: 1.300)").
Proof. vm_compute. reflexivity. Qed.

(** A position [-1] returned by the search reads the last code of the
    list, as Python indexing does. *)
Example negative_position_reads_last :
  getitem (icd_codes Reference.demo_assets) (-1) = Ok "A000".
Proof. vm_compute. reflexivity. Qed.

(* ===================================================================== *)
(** ** More on the catalog: the shape of the entries *)
(* ===================================================================== *)

Module CatalogFacts.
Import PyStr.

Lemma rstrip_idem (s : string) : rstrip (rstrip s) = rstrip s.
Proof.
  induction s as [|a s IH]; [reflexivity|].
  cbn [rstrip]. destruct (rstrip s) as [|b r] eqn:E.
  - destruct (isspace a) eqn:Ea; [reflexivity|].
    cbn [rstrip]. rewrite Ea. reflexivity.
  - remember (String b r) as t eqn:Et. cbn [rstrip]. rewrite IH.
    subst t. reflexivity.
Qed.

(** [rstrip] keeps a first character that is not white space. *)
Lemma rstrip_head (c : ascii) (r : string) :
  isspace c = false -> exists r', rstrip (String c r) = String c r'.
Proof.
  intros H. cbn [rstrip]. destruct (rstrip r) as [|b r'].
  - rewrite H. eexists; reflexivity.
  - eexists; reflexivity.
Qed.

Lemma span_word_head (c : ascii) (r : string) :
  isspace c = false ->
  exists w, fst (span_word (String c r)) = String c w.
Proof.
  intros H. cbn [span_word]. rewrite H.
  destruct (span_word r) as [w rest]. eexists; reflexivity.
Qed.

(** Every item of a [split] starts with a character that is not white
    space: no item is empty. *)
Lemma split_items_head (k : nat) :
  forall s j w,
    nth_error (split k s) j = Some w ->
    exists c r, w = String c r /\ isspace c = false.
Proof.
  induction k as [|k IH]; intros s j w; rewrite PyStrFacts.split_eq;
    destruct (lstrip s) as [|c r] eqn:El; try (destruct j; discriminate).
  - destruct j as [|[|j]]; simpl; try discriminate.
    intros H; injection H as <-. exists c, r.
    split; [reflexivity|apply (PyStrFacts.lstrip_head _ _ _ El)].
  - pose proof (PyStrFacts.lstrip_head _ _ _ El) as Hc.
    destruct (span_word_head c r Hc) as [w0 Hw0].
    destruct (span_word (String c r)) as [w1 rest] eqn:E.
    cbn [fst] in Hw0. subst w1.
    destruct j as [|j]; simpl.
    + intros H; injection H as <-. exists c, w0. split; [reflexivity|exact Hc].
    + apply IH.
Qed.

End CatalogFacts.

Lemma in_parse_entries (lines : list string) (e : CodeEntry) :
  In e (parse_entries lines) <->
  exists line, In line lines /\ entry_of_line line = Some e.
Proof.
  unfold parse_entries. rewrite parse_loop_eq. cbn [app].
  rewrite in_flat_map. split; intros (line & Hin & H); exists line;
    (split; [exact Hin|]).
  - destruct (entry_of_line line) as [e'|]; [|destruct H].
    destruct H as [->|[]]. reflexivity.
  - rewrite H. left. reflexivity.
Qed.

(** X1. Every entry of the catalog has a code and a short description that
    are single non-empty words (no white space at all), and a non-empty
    long description without white space at either end. *)
Theorem entries_well_formed (lines : list string) (e : CodeEntry) :
  In e (parse_entries lines) ->
  code e <> EmptyString
  /\ PyStr.has_space (code e) = false
  /\ short_description e <> EmptyString
  /\ PyStr.has_space (short_description e) = false
  /\ long_description e <> EmptyString
  /\ PyStr.strip (long_description e) = long_description e.
Proof.
  intros Hin. apply in_parse_entries in Hin as (line & _ & He).
  destruct (entry_fields_are_words line e He)
    as (t1 & t3 & t5 & Hsplit & Hlong & Hcode & Hshort).
  assert (Hitem : forall j w,
             nth_error [t1; code e; t3; short_description e; t5] j = Some w ->
             exists c r, w = String c r /\ PyStr.isspace c = false).
  { intros j w. rewrite <- Hsplit. apply CatalogFacts.split_items_head. }
  destruct (Hitem 1%nat _ eq_refl) as (c2 & r2 & E2 & _).
  destruct (Hitem 3%nat _ eq_refl) as (c4 & r4 & E4 & _).
  destruct (Hitem 4%nat _ eq_refl) as (c5 & r5 & E5 & H5).
  destruct (CatalogFacts.rstrip_head c5 r5 H5) as [r5' Hr5].
  rewrite E5 in Hlong. rewrite Hr5 in Hlong.
  repeat split; try assumption.
  - rewrite E2. discriminate.
  - rewrite E4. discriminate.
  - rewrite Hlong. discriminate.
  - unfold PyStr.strip. rewrite Hlong at 1. cbn [PyStr.lstrip]. rewrite H5.
    rewrite <- Hlong. rewrite Hlong at 1. rewrite <- Hr5.
    rewrite CatalogFacts.rstrip_idem. rewrite Hr5. symmetry. exact Hlong.
Qed.

Lemma entries_well_formed_witness :
  In (mkEntry "A000" "Cholera" "Cholera due to Vibrio cholerae")
    (parse_entries Reference.demo_lines)
  /\ PyStr.strip "Cholera due to Vibrio cholerae"
     = "Cholera due to Vibrio cholerae".
Proof.
  assert (Hin : In (mkEntry "A000" "Cholera" "Cholera due to Vibrio cholerae")
                  (parse_entries Reference.demo_lines))
    by (vm_compute; tauto).
  split; [exact Hin|].
  exact (proj2 (proj2 (proj2 (proj2 (proj2
           (entries_well_formed Reference.demo_lines _ Hin)))))).
Defined.

(** X2. The catalog is built line by line: the entries of two runs of
    lines are the entries of the first followed by the entries of the
    second, and there are never more entries than lines. *)
Theorem parse_entries_line_by_line (lines1 lines2 : list string) :
  parse_entries (lines1 ++ lines2)
  = parse_entries lines1 ++ parse_entries lines2
  /\ (List.length (parse_entries lines1) <= List.length lines1)%nat.
Proof.
  unfold parse_entries. rewrite !parse_loop_eq. cbn [app]. split.
  - apply flat_map_app.
  - induction lines1 as [|line lines IH]; simpl; [lia|].
    rewrite length_app. destruct (entry_of_line line); simpl; lia.
Qed.

(* ===================================================================== *)
(** ** More on steps 1 and 2: what the files become *)
(* ===================================================================== *)

(** X3. [setup_icd10_data] never touches [codes.txt] or the index file,
    and it reads the catalog before it writes anything.  It returns
    [False] exactly when opening [codes.txt] raises [FileNotFoundError],
    and any other error of the read goes through; in both cases every
    file is as it was.  It returns [True] only when the catalog was read,
    and the three lists then hold the chunk texts, the codes and the long
    descriptions of the entries of the catalog. *)
Theorem setup_reads_before_writing (w : World) :
  codes_txt (snd (setup_icd10_data w)) = codes_txt w
  /\ icd10_index_3 (snd (setup_icd10_data w)) = icd10_index_3 w
  /\ (holds (codes_txt w) = false ->
      files (snd (setup_icd10_data w)) = files w)
  /\ (fst (setup_icd10_data w) = Returns false
      <-> exists e, open_read "./codes.txt" (codes_txt w) = Raise e
                    /\ is_FileNotFoundError e = true)
  /\ (forall e, open_read "./codes.txt" (codes_txt w) = Raise e ->
                is_FileNotFoundError e = false ->
                fst (setup_icd10_data w) = Raises e)
  /\ (fst (setup_icd10_data w) = Returns true ->
      exists lines,
        codes_txt w = Holds lines
        /\ icd_chunks_3 (snd (setup_icd10_data w))
           = Holds (chunks_of (parse_entries lines))
        /\ icd_codes_3 (snd (setup_icd10_data w))
           = Holds (codes_of (parse_entries lines))
        /\ icd_descriptions_3 (snd (setup_icd10_data w))
           = Holds (descriptions_of (parse_entries lines))).
Proof.
  destruct w as [ct ch co de ix out].
  unfold setup_icd10_data, IOMonad.bind, IOMonad.get. cbn [codes_txt].
  destruct ct as [|e|lines]; cbn [open_read].
  - cbn. repeat split; intros; try reflexivity; try discriminate.
    + eexists. split; reflexivity.
    + match goal with H : Raise _ = Raise _ |- _ => injection H as <- end.
      discriminate.
  - destruct (is_FileNotFoundError e) eqn:E; cbn;
      repeat split; intros; try reflexivity; try discriminate.
    + exists e. split; [reflexivity|exact E].
    + match goal with H : Raise _ = Raise _ |- _ => injection H as <- end.
      congruence.
    + match goal with
      | H : exists _, _ |- _ => destruct H as (e' & He' & HF)
      end.
      injection He' as <-. congruence.
    + match goal with H : Raise _ = Raise _ |- _ => injection H as <- end.
      reflexivity.
  - cbn. repeat split; intros; try reflexivity; try discriminate.
    + match goal with
      | H : exists _, _ |- _ => destruct H as (e' & He' & _)
      end.
      discriminate He'.
    + exists lines. repeat split.
Qed.

Lemma setup_reads_before_writing_witness :
  fst (setup_icd10_data Reference.fresh_world) = Returns true
  /\ icd_codes_3 (snd (setup_icd10_data Reference.fresh_world))
     = Holds ["I219"; "J111"; "E119"; "A000"]
  /\ fst (setup_icd10_data Scenarios.empty_world) = Returns false.
Proof.
  split; [reflexivity|]. split.
  - destruct (setup_reads_before_writing Reference.fresh_world)
      as (_ & _ & _ & _ & _ & Htrue).
    destruct (Htrue eq_refl) as (lines & Hl & _ & Hc & _).
    injection Hl as <-. rewrite Hc. reflexivity.
  - destruct (setup_reads_before_writing Scenarios.empty_world)
      as (_ & _ & _ & Hfalse & _).
    apply Hfalse. eexists. split; reflexivity.
Defined.

(** X4. [setup_icd10_data] is idempotent: a second run returns what the
    first returned and leaves the files as the first left them, whatever
    the knowledge-base files held before. *)
Theorem setup_idempotent (w : World) :
  fst (setup_icd10_data (snd (setup_icd10_data w))) = fst (setup_icd10_data w)
  /\ files (snd (setup_icd10_data (snd (setup_icd10_data w))))
     = files (snd (setup_icd10_data w)).
Proof.
  destruct w as [ct ch co de ix out].
  unfold setup_icd10_data, IOMonad.bind, IOMonad.get. cbn [codes_txt].
  destruct ct as [|e|lines]; cbn [open_read].
  - cbn. split; reflexivity.
  - destruct (is_FileNotFoundError e) eqn:E; cbn; rewrite ?E; cbn;
      split; reflexivity.
  - cbn. split; reflexivity.
Qed.

Section IndexFacts.

Variable SentenceTransformer : string -> result Embedder.

Local Notation "'create1'" := (create_embedding_index SentenceTransformer).

(** What [create_embedding_index] does once the chunk list is read. *)
Lemma create_from_chunks ct chunks co de ix out :
  create1 (mkWorld ct (Holds chunks) co de ix out) =
    let out1 :=
      out ++ [Line "Downloading Sentence-BERT model (this may take several minutes on first run)..."] in
    match SentenceTransformer EMBEDDING_MODEL_NAME with
    | Raise e => (Raises e, mkWorld ct (Holds chunks) co de ix out1)
    | Ok embedder =>
        let out2 :=
          out1 ++ [Line "Model loaded successfully. Creating embeddings..."] in
        let w2 := mkWorld ct (Holds chunks) co de ix out2 in
        match encode embedder chunks with
        | Raise e => (Raises e, w2)
        | Ok [] => (Raises numpy_IndexError, w2)
        | Ok (v :: rest) =>
            if uniform (List.length v) (v :: rest) then
              (Returns true,
               mkWorld ct (Holds chunks) co de
                 (Holds {| dim := List.length v; xb := v :: rest |})
                 (out2 ++ [Line "FAISS index created."]))
            else (Raises AssertionError, w2)
        end
    end.
Proof.
  unfold create_embedding_index, IOMonad.bind, IOMonad.get, IOMonad.lift.
  cbn [icd_chunks_3 open_read IOMonad.print IOMonad.emit].
  destruct (SentenceTransformer EMBEDDING_MODEL_NAME) as [embedder|e];
    [|reflexivity].
  cbn [codes_txt icd_chunks_3 icd_codes_3 icd_descriptions_3 icd10_index_3 stdout].
  destruct (encode embedder chunks) as [[|v rest]|e]; try reflexivity.
  cbn [row0]. unfold index_add, uniform. cbn [dim xb].
  match goal with
  | |- context [if ?b then _ else _] => destruct b
  end; reflexivity.
Qed.


(** X6. When [create_embedding_index] returns [True], the chunk list was
    read, the model loaded and the encoder returned at least one vector,
    all of the dimension of the first; the index file then holds an index
    of that dimension with exactly the vectors returned, in their order:
    nothing of a former index is kept.  It returns [False] exactly when
    opening the chunk file raises [FileNotFoundError]. *)
Theorem create_success_index (w : World) :
  (fst (create1 w) = Returns true ->
   exists chunks embedder v rest,
     icd_chunks_3 w = Holds chunks
     /\ SentenceTransformer EMBEDDING_MODEL_NAME = Ok embedder
     /\ encode embedder chunks = Ok (v :: rest)
     /\ uniform (List.length v) rest = true
     /\ icd10_index_3 (snd (create1 w))
        = Holds {| dim := List.length v; xb := v :: rest |})
  /\ (fst (create1 w) = Returns false
      <-> exists e,
            open_read "icd10_kb/icd_chunks_3.json" (icd_chunks_3 w) = Raise e
            /\ is_FileNotFoundError e = true).
Proof.
  assert (Huni : forall v rest,
             uniform (List.length v) (v :: rest) = uniform (List.length v) rest).
  { intros v rest. unfold uniform. cbn [forallb]. rewrite Nat.eqb_refl.
    reflexivity. }
  destruct w as [ct ch co de ix out]. destruct ch as [|e|chunks].
  - cbn. split; [discriminate|]. split; [intros _|reflexivity].
    eexists. split; reflexivity.
  - unfold create_embedding_index, IOMonad.bind, IOMonad.get.
    cbn [icd_chunks_3 open_read].
    destruct (is_FileNotFoundError e) eqn:E; cbn;
      (split; [discriminate|]); split; try discriminate; try reflexivity.
    + intros _. exists e. split; [reflexivity|exact E].
    + intros (e' & He' & HF). injection He' as <-. congruence.
  - rewrite create_from_chunks. cbv zeta. cbn [icd_chunks_3 open_read].
    assert (Hno : ~ exists e : exn,
                    Ok chunks = Raise e /\ is_FileNotFoundError e = true).
    { intros (e & He & _). discriminate He. }
    destruct (SentenceTransformer EMBEDDING_MODEL_NAME) as [embedder|e].
    + destruct (encode embedder chunks) as [[|v rest]|e] eqn:Henc.
      * cbn. split; [discriminate|]. split; [discriminate|].
        intros H. destruct (Hno H).
      * rewrite Huni. destruct (uniform (List.length v) rest) eqn:Hu; cbn.
        -- split.
           ++ intros _. exists chunks, embedder, v, rest.
              repeat split; assumption.
           ++ split; [discriminate|]. intros H. destruct (Hno H).
        -- split; [discriminate|]. split; [discriminate|].
           intros H. destruct (Hno H).
      * cbn. split; [discriminate|]. split; [discriminate|].
        intros H. destruct (Hno H).
    + cbn. split; [discriminate|]. split; [discriminate|].
      intros H. destruct (Hno H).
Qed.

End IndexFacts.

Lemma create_success_index_witness :
  fst (create_embedding_index Reference.SentenceTransformer
         (snd (setup_icd10_data Reference.fresh_world))) = Returns true
  /\ icd10_index_3
       (snd (create_embedding_index Reference.SentenceTransformer
               (snd (setup_icd10_data Reference.fresh_world))))
     = Holds Reference.demo_index
  /\ fst (create_embedding_index Reference.SentenceTransformer
            Reference.fresh_world) = Returns false.
Proof.
  split; [reflexivity|]. split.
  - destruct (proj1 (create_success_index Reference.SentenceTransformer
                       (snd (setup_icd10_data Reference.fresh_world)))
                eq_refl)
      as (chunks & embedder & v & rest & Hc & Hm & He & _ & Hix).
    rewrite Hix. vm_compute in Hc. injection Hc as <-.
    vm_compute in Hm. injection Hm as <-.
    vm_compute in He. injection He as <- <-. reflexivity.
  - apply (proj2 (create_success_index Reference.SentenceTransformer
                    Reference.fresh_world)).
    eexists. split; reflexivity.
Defined.

(* ===================================================================== *)
(** ** What a run keeps *)
(* ===================================================================== *)

Section Frame.

Variable SentenceTransformer : string -> result Embedder.
Variable token_sort_ratio : string -> string -> Q.
Variable faiss_search :
  IndexFlatL2 -> list vector -> result (Distances * Labels).
Variable float_str : Q -> string.

Variable R : World -> World -> Prop.
Hypothesis R_refl : forall w, R w w.
Hypothesis R_trans : forall w1 w2 w3, R w1 w2 -> R w2 w3 -> R w1 w3.
Hypothesis R_print : forall s w, R w (snd (IOMonad.print s w)).
Hypothesis R_write_kb :
  forall chunks codes descs w,
    R w (snd (IOMonad.write_kb chunks codes descs w)).
Hypothesis R_write_index : forall ix w, R w (snd (IOMonad.write_index ix w)).
Hypothesis R_report : forall r w, R w (snd (IOMonad.emit (Json r) w)).

Lemma preserves_ret {A} (a : A) : preserves R (IOMonad.ret a).
Proof. intros w. apply R_refl. Qed.

Lemma preserves_get : preserves R IOMonad.get.
Proof. intros w. apply R_refl. Qed.

Lemma preserves_lift {A} (r : result A) : preserves R (IOMonad.lift r).
Proof. intros w. destruct r; apply R_refl. Qed.

Lemma preserves_sys_exit {A} (n : Z) : preserves R (@IOMonad.sys_exit A n).
Proof. intros w. apply R_refl. Qed.

Lemma preserves_print (s : string) : preserves R (IOMonad.print s).
Proof. intros w. apply R_print. Qed.

Lemma preserves_bind {A B} (c : IO A) (k : A -> IO B) :
  preserves R c -> (forall a, preserves R (k a)) ->
  preserves R (IOMonad.bind c k).
Proof.
  intros Hc Hk w. unfold IOMonad.bind.
  specialize (Hc w). destruct (c w) as [[a|e|n] w']; cbn [snd] in *;
    try exact Hc.
  apply (R_trans _ _ _ Hc), Hk.
Qed.

Lemma preserves_write_kb chunks codes descs :
  preserves R (IOMonad.write_kb chunks codes descs).
Proof. intros w. apply R_write_kb. Qed.

Lemma preserves_write_index ix : preserves R (IOMonad.write_index ix).
Proof. intros w. apply R_write_index. Qed.

Lemma preserves_report r : preserves R (IOMonad.emit (Json r)).
Proof. intros w. apply R_report. Qed.

(** Splits a command along its binds, tests and matches. *)
Ltac frame :=
  repeat first
    [ apply preserves_ret | apply preserves_get | apply preserves_lift
    | apply preserves_sys_exit | apply preserves_print
    | apply preserves_write_kb | apply preserves_write_index
    | apply preserves_report
    | apply preserves_bind; [|intros ?]
    | match goal with
      | |- preserves _ (match ?x with _ => _ end) => destruct x
      end ].

Lemma setup_preserves : preserves R setup_icd10_data.
Proof. unfold setup_icd10_data. frame. Qed.

Lemma create_preserves :
  preserves R (create_embedding_index SentenceTransformer).
Proof. unfold create_embedding_index. frame. Qed.

Lemma map_diagnoses_preserves input :
  preserves R
    (map_diagnoses SentenceTransformer token_sort_ratio faiss_search
       float_str input).
Proof. unfold map_diagnoses. frame. Qed.

Lemma initialize_preserves :
  preserves R (initialize_system SentenceTransformer).
Proof. unfold initialize_system. frame. Qed.

Lemma main_preserves argv :
  preserves R
    (main SentenceTransformer token_sort_ratio faiss_search float_str argv).
Proof. unfold main. frame. Qed.

End Frame.

Lemma same_files_refl w : same_files w w.
Proof. reflexivity. Qed.

Lemma same_files_trans w1 w2 w3 :
  same_files w1 w2 -> same_files w2 w3 -> same_files w1 w3.
Proof. unfold same_files. congruence. Qed.

Lemma same_codes_txt_trans w1 w2 w3 :
  same_codes_txt w1 w2 -> same_codes_txt w2 w3 -> same_codes_txt w1 w3.
Proof. unfold same_codes_txt. congruence. Qed.

Lemma output_grows_refl w : output_grows w w.
Proof. exists []. symmetry. apply app_nil_r. Qed.

Lemma output_grows_trans w1 w2 w3 :
  output_grows w1 w2 -> output_grows w2 w3 -> output_grows w1 w3.
Proof.
  intros [o1 H1] [o2 H2]. exists (o1 ++ o2). rewrite H2, H1.
  symmetry. apply app_assoc.
Qed.

Lemma same_reports_trans w1 w2 w3 :
  same_reports w1 w2 -> same_reports w2 w3 -> same_reports w1 w3.
Proof. unfold same_reports. congruence. Qed.

Lemma count_json_app out1 out2 :
  count_json (out1 ++ out2) = (count_json out1 + count_json out2)%nat.
Proof. unfold count_json. rewrite filter_app, length_app. reflexivity. Qed.

Lemma same_reports_print s w : same_reports w (snd (IOMonad.print s w)).
Proof.
  unfold same_reports, IOMonad.print, IOMonad.emit. cbn [snd stdout].
  rewrite count_json_app. cbn. lia.
Qed.

Lemma create_keeps_kb SentenceTransformer w :
  same_kb w (snd (create_embedding_index SentenceTransformer w)).
Proof.
  apply (create_preserves SentenceTransformer same_kb).
  - intros w0. repeat split.
  - unfold same_kb. intros w1 w2 w3 (A1 & A2 & A3 & A4) (B1 & B2 & B3 & B4).
    repeat split; congruence.
  - intros s0 w0. repeat split.
  - intros ix w0. repeat split.
Qed.

Section RunFacts.

Variable SentenceTransformer : string -> result Embedder.
Variable token_sort_ratio : string -> string -> Q.
Variable faiss_search :
  IndexFlatL2 -> list vector -> result (Distances * Labels).
Variable float_str : Q -> string.

Local Notation "'map_diagnoses1'" :=
  (map_diagnoses SentenceTransformer token_sort_ratio faiss_search float_str).
Local Notation "'main1'" :=
  (main SentenceTransformer token_sort_ratio faiss_search float_str).
Local Notation "'init1'" := (initialize_system SentenceTransformer).

(** X7. [map_diagnoses] always returns a list, never raises and never
    exits, whatever the files hold and whatever the encoder and the index
    do; it changes no file, and it prints at most the one line that
    reports a failed load. *)
Theorem map_diagnoses_total_read_only (input : diagnoses_input) (w : World) :
  (exists results, fst (map_diagnoses1 input w) = Returns results)
  /\ files (snd (map_diagnoses1 input w)) = files w
  /\ (stdout (snd (map_diagnoses1 input w)) = stdout w
      \/ exists e,
           load_assets SentenceTransformer w = Raise e
           /\ stdout (snd (map_diagnoses1 input w))
              = stdout w ++ [Line ("Error loading assets: " ++ exn_str e)%string]).
Proof.
  destruct (load_assets SentenceTransformer w) as [a|e] eqn:Hload.
  - rewrite (map_diagnoses_loaded _ _ _ _ input w a Hload). cbn [fst snd].
    split; [eexists; reflexivity|]. split; [reflexivity|left; reflexivity].
  - rewrite (map_diagnoses_unloaded _ _ _ _ input w e Hload). cbn [fst snd].
    split; [eexists; reflexivity|]. split; [reflexivity|].
    right. exists e. split; reflexivity.
Qed.

(** X8. A run of [main] never changes [codes.txt] and never erases what
    was printed before it: the standard output only grows. *)
Theorem main_keeps_catalog_file (argv : list string) (w : World) :
  codes_txt (snd (main1 argv w)) = codes_txt w
  /\ exists out, stdout (snd (main1 argv w)) = stdout w ++ out.
Proof.
  split.
  - apply (main_preserves SentenceTransformer token_sort_ratio faiss_search
             float_str same_codes_txt);
      try (intros; reflexivity). apply same_codes_txt_trans.
  - apply (main_preserves SentenceTransformer token_sort_ratio faiss_search
             float_str output_grows).
    + apply output_grows_refl.
    + apply output_grows_trans.
    + intros s w0. eexists. reflexivity.
    + intros c1 c2 c3 w0. exists []. cbn. symmetry. apply app_nil_r.
    + intros ix w0. exists []. cbn. symmetry. apply app_nil_r.
    + intros r w0. eexists. reflexivity.
Qed.

Lemma reports_once_bind {A} (c : IO A) (k : A -> IO unit) :
  preserves same_reports c -> (forall a, reports_once (k a)) ->
  reports_once (IOMonad.bind c k).
Proof.
  intros Hc Hk w. unfold IOMonad.bind. specialize (Hc w).
  unfold same_reports in Hc.
  destruct (c w) as [[a|e|n] w']; cbn [fst snd] in *.
  - rewrite Hk, Hc. reflexivity.
  - rewrite Hc. lia.
  - rewrite Hc. lia.
Qed.

Lemma exits_ret {A} (a : A) : exits_with_1 (IOMonad.ret a).
Proof. intros w n H. discriminate H. Qed.

Lemma exits_get : exits_with_1 IOMonad.get.
Proof. intros w n H. discriminate H. Qed.

Lemma exits_lift {A} (r : result A) : exits_with_1 (IOMonad.lift r).
Proof. intros w n H. destruct r; discriminate H. Qed.

Lemma exits_emit p : exits_with_1 (IOMonad.emit p).
Proof. intros w n H. discriminate H. Qed.

Lemma exits_write_kb c1 c2 c3 : exits_with_1 (IOMonad.write_kb c1 c2 c3).
Proof. intros w n H. discriminate H. Qed.

Lemma exits_write_index ix : exits_with_1 (IOMonad.write_index ix).
Proof. intros w n H. discriminate H. Qed.

Lemma exits_sys_exit_1 {A} : exits_with_1 (@IOMonad.sys_exit A 1).
Proof. intros w n H. injection H as <-. reflexivity. Qed.

Lemma exits_bind {A B} (c : IO A) (k : A -> IO B) :
  exits_with_1 c -> (forall a, exits_with_1 (k a)) ->
  exits_with_1 (IOMonad.bind c k).
Proof.
  intros Hc Hk w n. unfold IOMonad.bind. specialize (Hc w).
  destruct (c w) as [[a|e|m] w']; cbn [fst] in *.
  - apply Hk.
  - discriminate.
  - intros H. injection H as <-. apply Hc. reflexivity.
Qed.

Ltac exits :=
  repeat first
    [ apply exits_ret | apply exits_get | apply exits_lift
    | apply exits_sys_exit_1 | apply exits_emit
    | apply exits_write_kb | apply exits_write_index
    | apply exits_bind; [|intros ?]
    | match goal with
      | |- exits_with_1 (match ?x with _ => _ end) => destruct x
      end ].

Lemma main_exits_with_1 argv : exits_with_1 (main1 argv).
Proof. unfold main. exits. Qed.

Lemma main_reports_once argv : reports_once (main1 argv).
Proof.
  unfold main.
  apply reports_once_bind.
  { intros w. unfold same_reports.
    destruct (List.length argv <? 2)%nat; [|reflexivity].
    unfold IOMonad.bind, IOMonad.print, IOMonad.emit, IOMonad.sys_exit.
    cbn [fst snd stdout]. rewrite !count_json_app. cbn. lia. }
  intros _. apply reports_once_bind.
  { apply (initialize_preserves SentenceTransformer same_reports).
    - reflexivity.
    - apply same_reports_trans.
    - apply same_reports_print.
    - reflexivity.
    - reflexivity. }
  intros ok. apply reports_once_bind.
  { intros w. destruct ok; reflexivity. }
  intros _. apply reports_once_bind.
  { apply (map_diagnoses_preserves SentenceTransformer token_sort_ratio
             faiss_search float_str same_reports).
    - reflexivity.
    - apply same_reports_trans.
    - apply same_reports_print. }
  intros results w. unfold IOMonad.emit. cbn [fst snd stdout].
  rewrite count_json_app. reflexivity.
Qed.

(** X9. Whatever the arguments and the files, a run of [main] ends with
    exit status 0 or 1; it prints exactly one report when the status is
    0 and no report when it is 1. *)
Theorem main_status_and_report (argv : list string) (w : World) :
  let status :=
    exit_status SentenceTransformer token_sort_ratio faiss_search float_str
      argv w in
  (status = 0%Z \/ status = 1%Z)
  /\ (status = 0%Z ->
      count_json (stdout (snd (main1 argv w))) = S (count_json (stdout w)))
  /\ (status = 1%Z ->
      count_json (stdout (snd (main1 argv w))) = count_json (stdout w)).
Proof.
  cbv zeta. unfold exit_status.
  pose proof (main_reports_once argv w) as Hcount.
  pose proof (main_exits_with_1 argv w) as Hexit.
  destruct (fst (main1 argv w)) as [[]|e|n].
  - split; [left; reflexivity|]. split; [intros _; lia|discriminate].
  - split; [right; reflexivity|]. split; [discriminate|intros _; lia].
  - rewrite (Hexit n eq_refl).
    split; [right; reflexivity|]. split; [discriminate|intros _; lia].
Qed.

(** X10. With fewer than two arguments [main] prints the two lines of the
    usage and exits with status 1: it reads and writes no file and does
    not initialize anything. *)
Theorem main_usage (argv : list string) (w : World) :
  (List.length argv < 2)%nat ->
  fst (main1 argv w) = Exits 1
  /\ files (snd (main1 argv w)) = files w
  /\ stdout (snd (main1 argv w))
     = stdout w
       ++ [Line ("Usage: python icd10_mapper.py " ++ quoted "diagnosis text"
                 ++ " [" ++ quoted "diagnosis2" ++ "] ...")%string;
           Line ("Example: python icd10_mapper.py "
                 ++ quoted "acute myocardial infarction")%string].
Proof.
  intros Hargv. unfold main, IOMonad.bind.
  destruct (Nat.ltb_spec (List.length argv) 2) as [H|H]; [|lia].
  cbn. rewrite <- app_assoc. repeat split.
Qed.

(** X11. When the codes file of the knowledge base exists,
    [initialize_system] does not read [codes.txt] and rewrites none of
    the three lists, whatever [codes.txt] holds; when the index file
    exists as well, it returns [True] and changes no file at all. *)
Theorem initialize_keeps_existing (w : World) :
  exists_ (icd_codes_3 w) = true ->
  codes_txt (snd (init1 w)) = codes_txt w
  /\ icd_chunks_3 (snd (init1 w)) = icd_chunks_3 w
  /\ icd_codes_3 (snd (init1 w)) = icd_codes_3 w
  /\ icd_descriptions_3 (snd (init1 w)) = icd_descriptions_3 w
  /\ (exists_ (icd10_index_3 w) = true ->
      fst (init1 w) = Returns true
      /\ files (snd (init1 w)) = files w
      /\ stdout (snd (init1 w))
         = stdout w ++ [Line "Initializing ICD-10 mapping system...";
                        Line "System initialized successfully!"]).
Proof.
  intros Hcodes. destruct w as [ct ch co de ix out]. cbn [icd_codes_3] in Hcodes.
  set (w1 := mkWorld ct ch co de ix
               (out ++ [Line "Initializing ICD-10 mapping system..."])).
  assert (Hrun : init1 (mkWorld ct ch co de ix out) =
                 if exists_ ix then
                   (Returns true,
                    mkWorld ct ch co de ix
                      ((out ++ [Line "Initializing ICD-10 mapping system..."])
                       ++ [Line "System initialized successfully!"]))
                 else
                   let r := create_embedding_index SentenceTransformer
                              (mkWorld ct ch co de ix
                                 (stdout w1 ++ [Line "Creating embedding index..."])) in
                   match fst r with
                   | Returns true =>
                       (Returns true,
                        mkWorld (codes_txt (snd r)) (icd_chunks_3 (snd r))
                          (icd_codes_3 (snd r)) (icd_descriptions_3 (snd r))
                          (icd10_index_3 (snd r))
                          (stdout (snd r)
                           ++ [Line "System initialized successfully!"]))
                   | o => (o, snd r)
                   end).
  { unfold initialize_system, IOMonad.bind, IOMonad.print, IOMonad.emit,
      IOMonad.get, IOMonad.ret.
    cbn [icd_codes_3 icd10_index_3 codes_txt icd_chunks_3 icd_descriptions_3
         stdout fst snd].
    rewrite Hcodes. cbn -[create_embedding_index].
    destruct (exists_ ix); cbn -[create_embedding_index]; [reflexivity|].
    subst w1. cbn [stdout]. cbv zeta.
    destruct (create_embedding_index SentenceTransformer _) as [[[|]|e|n] w2];
      reflexivity. }
  rewrite Hrun. clear Hrun. destruct (exists_ ix) eqn:Hix.
  - cbn. rewrite <- app_assoc. repeat split.
  - cbv zeta.
    pose proof (create_keeps_kb SentenceTransformer
                  (mkWorld ct ch co de ix
                     (stdout w1 ++ [Line "Creating embedding index..."])))
      as (H1 & H2 & H3 & H4).
    cbn [codes_txt icd_chunks_3 icd_codes_3 icd_descriptions_3] in H1, H2, H3, H4.
    cbn [icd10_index_3]. rewrite Hix.
    destruct (fst (create_embedding_index SentenceTransformer _)) as [[|]|e|n];
      cbn [snd codes_txt icd_chunks_3 icd_codes_3 icd_descriptions_3];
      repeat split; try assumption; discriminate.
Qed.

(** X12. With neither the codes file of the knowledge base nor
    [codes.txt], [initialize_system] returns [False] and changes no file;
    a run of [main] then exits with status 1, prints no report and
    changes no file. *)
Theorem initialize_without_catalog (argv : list string) (w : World) :
  icd_codes_3 w = Missing ->
  codes_txt w = Missing ->
  (2 <= List.length argv)%nat ->
  fst (init1 w) = Returns false
  /\ files (snd (init1 w)) = files w
  /\ fst (main1 argv w) = Exits 1
  /\ files (snd (main1 argv w)) = files w
  /\ count_json (stdout (snd (main1 argv w))) = count_json (stdout w).
Proof.
  intros Hco Hct Hargv. destruct w as [ct ch co de ix out].
  cbn [icd_codes_3 codes_txt] in Hco, Hct. subst co ct.
  assert (Hinit : exists out',
             init1 (mkWorld Missing ch Missing de ix out)
             = (Returns false, mkWorld Missing ch Missing de ix (out ++ out'))
             /\ count_json out' = 0%nat).
  { eexists. split.
    - unfold initialize_system, setup_icd10_data, IOMonad.bind, IOMonad.print,
        IOMonad.emit, IOMonad.get, IOMonad.ret.
      cbn. rewrite <- !app_assoc. reflexivity.
    - reflexivity. }
  destruct Hinit as (out' & Hinit & Hcount).
  rewrite Hinit. cbn [fst snd].
  unfold main, IOMonad.bind.
  destruct (Nat.ltb_spec (List.length argv) 2) as [H|H]; [lia|].
  cbn [IOMonad.ret]. rewrite Hinit. cbn [negb IOMonad.sys_exit fst snd stdout].
  repeat split. rewrite count_json_app, Hcount. lia.
Qed.

(** X13. On a fresh directory (no list of the knowledge base, no index)
    with a readable [codes.txt], a model that loads and an encoder that
    returns vectors of one dimension for the chunk texts,
    [initialize_system] returns [True] and the assets that
    [map_diagnoses] then loads are those of the catalog: the chunk
    texts, codes and long descriptions of its entries, position by
    position, and the index of the vectors returned.  A run of [main]
    then prints the result of each diagnosis, in order, and returns. *)
Theorem first_run_from_catalog (argv : list string) (w : World)
    (lines : list string) (embedder : Embedder) (v : vector)
    (rest : list vector) :
  codes_txt w = Holds lines ->
  icd_codes_3 w = Missing ->
  icd10_index_3 w = Missing ->
  SentenceTransformer EMBEDDING_MODEL_NAME = Ok embedder ->
  encode embedder (chunks_of (parse_entries lines)) = Ok (v :: rest) ->
  uniform (List.length v) rest = true ->
  (2 <= List.length argv)%nat ->
  let entries := parse_entries lines in
  let assets :=
    mkAssets (chunks_of entries) (codes_of entries) (descriptions_of entries)
      {| dim := List.length v; xb := v :: rest |} embedder in
  fst (init1 w) = Returns true
  /\ load_assets SentenceTransformer (snd (init1 w)) = Ok assets
  /\ List.length (icd_codes assets) = List.length (icd_descs assets)
  /\ List.length (icd_chunks assets) = List.length (icd_codes assets)
  /\ fst (main1 argv w) = Returns tt
  /\ exists out,
       stdout (snd (main1 argv w))
       = out ++ [Json (mkReport (List.length (tl argv))
                         (map (item_result token_sort_ratio faiss_search
                                 float_str assets) (tl argv)))].
Proof.
  intros Hct Hco Hix HST Henc Huni Hargv entries assets.
  destruct w as [ct ch co de ix out].
  cbn [icd_codes_3 codes_txt icd10_index_3] in Hct, Hco, Hix. subst ct co ix.
  assert (Huni' : uniform (List.length v) (v :: rest) = true).
  { unfold uniform in *. cbn [forallb]. rewrite Nat.eqb_refl. exact Huni. }
  assert (Hinit : exists out',
             init1 (mkWorld (Holds lines) ch Missing de Missing out)
             = (Returns true,
                mkWorld (Holds lines) (Holds (chunks_of entries))
                  (Holds (codes_of entries)) (Holds (descriptions_of entries))
                  (Holds {| dim := List.length v; xb := v :: rest |}) out')).
  { eexists.
    unfold initialize_system, setup_icd10_data, IOMonad.bind, IOMonad.print,
      IOMonad.emit, IOMonad.get, IOMonad.ret, IOMonad.write_kb.
    cbn -[create_embedding_index parse_entries chunks_of codes_of
          descriptions_of].
    rewrite create_from_chunks. cbv zeta.
    rewrite HST. unfold entries. rewrite Henc, Huni'. reflexivity. }
  destruct Hinit as (out' & Hinit).
  assert (Hload : load_assets SentenceTransformer
                    (mkWorld (Holds lines) (Holds (chunks_of entries))
                       (Holds (codes_of entries))
                       (Holds (descriptions_of entries))
                       (Holds {| dim := List.length v; xb := v :: rest |}) out')
                  = Ok assets).
  { unfold load_assets. cbn [icd_chunks_3 icd_codes_3 icd_descriptions_3
                             icd10_index_3 open_read read_index bind].
    rewrite HST. reflexivity. }
  rewrite Hinit. cbn [fst snd].
  split; [reflexivity|]. split; [exact Hload|].
  split; [unfold assets, codes_of, descriptions_of; cbn [icd_codes icd_descs];
          rewrite !length_map; reflexivity|].
  split; [unfold assets, codes_of, chunks_of; cbn [icd_codes icd_chunks];
          rewrite !length_map; reflexivity|].
  rewrite (main_initialized _ _ _ _ argv _ _ Hargv Hinit).
  rewrite (map_diagnoses_loaded _ _ _ _ _ _ _ Hload).
  cbn [diagnoses_list_of IOMonad.emit fst snd stdout].
  rewrite (map_loop_eq token_sort_ratio faiss_search float_str).
  split; [reflexivity|]. eexists. reflexivity.
Qed.

End RunFacts.

(* ===================================================================== *)
(** ** More on the results of [map_diagnoses] *)
(* ===================================================================== *)

Lemma extractOne_loop_in scorer query (cs : list (nat * string)) :
  forall score_cutoff res c s k,
    extractOne_loop scorer query cs score_cutoff res = Some (c, s, k) ->
    res = Some (c, s, k) \/ In (k, c) cs.
Proof.
  induction cs as [|[key choice] rest IH]; intros cutoff res c s k.
  - simpl. intros H. left. exact H.
  - cbn [extractOne_loop].
    set (score := scorer_with_cutoff scorer query choice cutoff).
    set (better := Qle_bool cutoff score && _).
    destruct better.
    + destruct (Qeq_bool score 100).
      * intros H. injection H as <- <- <-. right. left. reflexivity.
      * intros H. apply IH in H as [H|H].
        -- injection H as <- <- <-. right. left. reflexivity.
        -- right. right. exact H.
    + destruct (Qeq_bool score 100).
      * intros H. left. exact H.
      * intros H. apply IH in H as [H|H]; [left; exact H|right; right; exact H].
Qed.

Lemma enumerate_in {A} (l : list A) (k : nat) (c : A) :
  In (k, c) (enumerate l) -> nth_error l k = Some c.
Proof.
  intros H. apply in_split in H as (l1 & l2 & H).
  apply enumerate_split in H as [Hk Hl].
  rewrite Hl, Hk, nth_error_app2; rewrite length_map; [|lia].
  rewrite Nat.sub_diag. reflexivity.
Qed.

(** What [extractOne] returns is a choice with its position, for any
    scorer. *)
Lemma extractOne_position scorer query choices score_cutoff c s k :
  extractOne scorer query choices score_cutoff = Some (c, s, k) ->
  nth_error choices k = Some c.
Proof.
  unfold extractOne. intros H.
  apply extractOne_loop_in in H as [H|H]; [discriminate H|].
  apply enumerate_in, H.
Qed.

Section ResultFacts.

Variable token_sort_ratio : string -> string -> Q.
Variable faiss_search :
  IndexFlatL2 -> list vector -> result (Distances * Labels).
Variable float_str : Q -> string.

Local Notation "'match1'" :=
  (match_diagnosis token_sort_ratio faiss_search float_str).
Local Notation "'item1'" := (item_result token_sort_ratio faiss_search float_str).
Local Notation "'loop1'" := (map_loop token_sort_ratio faiss_search float_str).

(** X14. The result of a diagnosis carries one of the four labels [High],
    [Medium], [Low] and [Error]; it has no code exactly when the label is
    [Error], and then no description either; and it lists alternatives
    only under the labels [Low] and [Medium]. *)
Theorem result_labels (a : Assets) (diag : string) :
  let r := item1 a diag in
  (confidence_level r = "High" \/ confidence_level r = "Medium"
   \/ confidence_level r = "Low" \/ confidence_level r = "Error")
  /\ (matched_icd_code r = None <-> confidence_level r = "Error")
  /\ (matched_description r = None <-> confidence_level r = "Error")
  /\ (alternative_codes r <> EmptyString ->
      confidence_level r = "Low" \/ confidence_level r = "Medium").
Proof.
  cbv zeta. unfold item_result, match_diagnosis.
  destruct (extractOne token_sort_ratio diag (icd_descs a) 85)
    as [[[c s] k]|].
  - destruct (keyword_match float_str a diag (c, s, k)) as [r|e] eqn:E.
    + unfold keyword_match in E. invert_binds E. injection E as <-.
      cbn [confidence_level matched_icd_code matched_description
           alternative_codes].
      destruct (Qle_bool 95 s); repeat split; intros; try discriminate;
        try tauto; congruence.
    + cbn. repeat split; intros; try reflexivity; try tauto; congruence.
  - destruct (semantic_match faiss_search a diag) as [r|e] eqn:E.
    + unfold semantic_match in E. invert_binds E. injection E as <-.
      cbn [confidence_level matched_icd_code matched_description
           alternative_codes].
      destruct (Qlt_bool float32_0_8 (col0 _)); repeat split; intros;
        try discriminate; tauto.
    + cbn. repeat split; intros; try reflexivity; try tauto; congruence.
Qed.

(** X15. When the lexical stage accepts the description at position [k],
    the result is a match exactly when the code list reaches position
    [k].  With a shorter code list the diagnosis gets the [Error] result
    of an index out of range: the semantic stage is not tried. *)
Theorem keyword_match_needs_code (a : Assets) (diag : string)
    (c : string) (s : Q) (k : nat) :
  extractOne token_sort_ratio diag (icd_descs a) 85 = Some (c, s, k) ->
  ((k < List.length (icd_codes a))%nat ->
   exists code,
     nth_error (icd_codes a) k = Some code
     /\ item1 a diag
        = mkResult diag (Some code) (Some c)
            (if Qle_bool 95 s then "High" else "Medium")
            ("Keyword match with score " ++ float_str s
             ++ "/100. Confidence: "
             ++ (if Qle_bool 95 s then "High" else "Medium")
             ++ ". Found similar phrase in ICD description.")%string
            EmptyString)
  /\ ((List.length (icd_codes a) <= k)%nat ->
      item1 a diag
      = mkResult diag None None "Error"
          "Error processing diagnosis: list index out of range" EmptyString).
Proof.
  intros Hex. pose proof (extractOne_position _ _ _ _ _ _ _ Hex) as Hdesc.
  unfold item_result, match_diagnosis. rewrite Hex. unfold keyword_match.
  split.
  - intros Hk. destruct (nth_error (icd_codes a) k) as [code|] eqn:Hcode;
      [|apply nth_error_None in Hcode; lia].
    exists code. split; [reflexivity|].
    rewrite (getitem_nat _ _ _ Hcode), (getitem_nat _ _ _ Hdesc). reflexivity.
  - intros Hk. rewrite getitem_out_of_range by lia. reflexivity.
Qed.

(** X16. The batch loop works item by item: the results of two lists of
    diagnoses put end to end are the results of the first followed by the
    results of the second, and there is always one result per diagnosis. *)
Theorem map_loop_item_by_item (a : Assets) (diagnoses1 diagnoses2 : list string) :
  loop1 a (diagnoses1 ++ diagnoses2) = loop1 a diagnoses1 ++ loop1 a diagnoses2
  /\ List.length (loop1 a diagnoses1) = List.length diagnoses1.
Proof.
  rewrite !(map_loop_eq token_sort_ratio faiss_search float_str).
  split; [apply map_app|apply length_map].
Qed.

(** X17. In the semantic stage, with code and description lists of the
    same length [n], a position returned by the search is accepted from
    [-n] to [n - 1] and read modulo [n], so that [-1] is the last entry:
    when the three positions are in this range the result is a match with
    the code and the description at the first position; when one of them
    is not, the diagnosis gets the [Error] result of an index out of
    range. *)
Theorem semantic_positions (a : Assets) (diag : string) (emb : list vector)
    (D : Distances) (I_ : Labels) (I0 : Z * Z * Z) (D0 : Q * Q * Q) :
  extractOne token_sort_ratio diag (icd_descs a) 85 = None ->
  encode (embedder a) [diag] = Ok emb ->
  faiss_search (index a) emb = Ok (D, I_) ->
  row0 I_ = Ok I0 ->
  row0 D = Ok D0 ->
  List.length (icd_descs a) = List.length (icd_codes a) ->
  let n := Z.of_nat (List.length (icd_codes a)) in
  let in_range := fun z => (- n <= z < n)%Z in
  (in_range (col0 I0) /\ in_range (col1 I0) /\ in_range (col2 I0) ->
   exists code desc r,
     nth_error (icd_codes a) (Z.to_nat (col0 I0 mod n)) = Some code
     /\ nth_error (icd_descs a) (Z.to_nat (col0 I0 mod n)) = Some desc
     /\ match1 a diag = Ok r
     /\ matched_icd_code r = Some code
     /\ matched_description r = Some desc)
  /\ (~ (in_range (col0 I0) /\ in_range (col1 I0) /\ in_range (col2 I0)) ->
      item1 a diag
      = mkResult diag None None "Error"
          "Error processing diagnosis: list index out of range" EmptyString).
Proof.
  intros Hex Henc Hsearch HI HD Hlen n in_range.
  assert (Hdec : forall z, in_range z
                           \/ (z < - n \/ n <= z)%Z) by (intros z; unfold in_range; lia).
  assert (Hcodes : forall z, in_range z ->
             exists x, getitem (icd_codes a) z = Ok x
                       /\ nth_error (icd_codes a) (Z.to_nat (z mod n)) = Some x).
  { intros z Hz. apply getitem_in_range. exact Hz. }
  assert (Hdescs : forall z, in_range z ->
             exists x, getitem (icd_descs a) z = Ok x
                       /\ nth_error (icd_descs a) (Z.to_nat (z mod n)) = Some x).
  { intros z Hz. unfold n. rewrite <- Hlen. apply getitem_in_range.
    rewrite Hlen. exact Hz. }
  assert (Hout : forall z, (z < - n \/ n <= z)%Z ->
             getitem (icd_codes a) z = Raise list_IndexError
             /\ getitem (icd_descs a) z = Raise list_IndexError).
  { intros z Hz. split; apply getitem_out_of_range; [|rewrite Hlen]; exact Hz. }
  unfold item_result, match_diagnosis. rewrite Hex. unfold semantic_match.
  rewrite Henc. cbn [bind]. rewrite Hsearch. cbn [bind].
  rewrite HI. cbn [bind].
  destruct (Hdec (col0 I0)) as [H0|H0].
  2:{ rewrite (proj1 (Hout _ H0)). cbn [bind]. split; [|reflexivity].
      intros (Hr & _). unfold in_range in Hr. lia. }
  destruct (Hcodes _ H0) as (code & Hg0 & Hn0).
  destruct (Hdescs _ H0) as (desc & Hg0' & Hn0').
  rewrite Hg0, Hg0'. cbn [bind]. rewrite HD. cbn [bind].
  destruct (Hdec (col1 I0)) as [H1|H1].
  2:{ rewrite (proj1 (Hout _ H1)). cbn [bind]. split; [|reflexivity].
      intros (_ & Hr & _). unfold in_range in Hr. lia. }
  destruct (Hcodes _ H1) as (c1 & Hg1 & _).
  destruct (Hdescs _ H1) as (d1 & Hg1' & _).
  rewrite Hg1, Hg1'. cbn [bind].
  destruct (Hdec (col2 I0)) as [H2|H2].
  2:{ rewrite (proj1 (Hout _ H2)). cbn [bind]. split; [|reflexivity].
      intros (_ & _ & Hr). unfold in_range in Hr. lia. }
  destruct (Hcodes _ H2) as (c2 & Hg2 & _).
  destruct (Hdescs _ H2) as (d2 & Hg2' & _).
  rewrite Hg2, Hg2'. cbn [bind]. split.
  - intros _. exists code, desc. eexists.
    split; [exact Hn0|]. split; [exact Hn0'|]. split; [reflexivity|].
    split; reflexivity.
  - intros Hnot. exfalso. apply Hnot. repeat split; first [apply H0|apply H1|apply H2].
Qed.

End ResultFacts.

Section JustificationFacts.

Variable token_sort_ratio : string -> string -> Q.
Variable faiss_search :
  IndexFlatL2 -> list vector -> result (Distances * Labels).
Variable float_str : Q -> string.

(** X18. The justification of a match repeats the label of its
    [confidence_level]: a keyword match states the score that the lexical
    stage returned, a semantic match the first distance of the search to
    three decimals, each followed by the label of the result. *)
Theorem justification_names_confidence (a : Assets) (diag : string)
    (r : MatchResult) :
  match_diagnosis token_sort_ratio faiss_search float_str a diag = Ok r ->
  match extractOne token_sort_ratio diag (icd_descs a) 85 with
  | Some (_, score, _) =>
      justification r
      = ("Keyword match with score " ++ float_str score
         ++ "/100. Confidence: " ++ confidence_level r
         ++ ". Found similar phrase in ICD description.")%string
  | None =>
      exists emb D I_ D0,
        encode (embedder a) [diag] = Ok emb
        /\ faiss_search (index a) emb = Ok (D, I_)
        /\ row0 D = Ok D0
        /\ justification r
           = ("Semantic match using Sentence-BERT. Distance: "
              ++ Fmt.format_3f (col0 D0) ++ ". Confidence: "
              ++ confidence_level r
              ++ ". No direct keyword match found above threshold.")%string
  end.
Proof.
  unfold match_diagnosis.
  destruct (extractOne token_sort_ratio diag (icd_descs a) 85)
    as [[[c s] k]|].
  - unfold keyword_match. intros H. invert_binds H.
    injection H as <-. reflexivity.
  - unfold semantic_match. intros H.
    destruct (encode (embedder a) [diag]) as [emb|] eqn:Henc;
      cbn [bind] in H; [|discriminate H].
    destruct (faiss_search (index a) emb) as [[D I_]|] eqn:Hs;
      cbn [bind] in H; [|discriminate H].
    destruct (row0 I_) as [I0|]; cbn [bind] in H; [|discriminate H].
    destruct (getitem (icd_codes a) (col0 I0)); cbn [bind] in H;
      [|discriminate H].
    destruct (getitem (icd_descs a) (col0 I0)); cbn [bind] in H;
      [|discriminate H].
    destruct (row0 D) as [D0|] eqn:HD; cbn [bind] in H; [|discriminate H].
    invert_binds H. injection H as <-.
    exists emb, D, I_, D0. repeat split; try assumption; reflexivity.
Qed.

End JustificationFacts.

(* ===================================================================== *)
(** ** The further results at concrete inputs *)
(* ===================================================================== *)

Lemma main_usage_witness :
  (List.length ["icd10_mapper.py"] < 2)%nat
  /\ fst (main Reference.SentenceTransformer Reference.token_sort_ratio
            Reference.faiss_search Reference.float_str ["icd10_mapper.py"]
            Reference.fresh_world) = Exits 1.
Proof.
  assert (H : (List.length ["icd10_mapper.py"] < 2)%nat) by (simpl; lia).
  split; [exact H|].
  exact (proj1 (main_usage Reference.SentenceTransformer
                  Reference.token_sort_ratio Reference.faiss_search
                  Reference.float_str ["icd10_mapper.py"]
                  Reference.fresh_world H)).
Defined.

Lemma initialize_keeps_existing_witness :
  exists_ (icd_codes_3 Reference.broken_world) = true
  /\ icd_chunks_3 (snd (initialize_system Reference.SentenceTransformer
                          Reference.broken_world)) = Missing
  /\ fst (initialize_system Reference.SentenceTransformer
            Reference.broken_world) = Returns true.
Proof.
  destruct (initialize_keeps_existing Reference.SentenceTransformer
              Reference.broken_world eq_refl) as (_ & Hch & _ & _ & Hix).
  split; [reflexivity|]. split; [exact Hch|].
  exact (proj1 (Hix eq_refl)).
Defined.

Lemma initialize_without_catalog_witness :
  icd_codes_3 Scenarios.empty_world = Missing
  /\ codes_txt Scenarios.empty_world = Missing
  /\ (2 <= List.length Scenarios.two_diagnoses)%nat
  /\ fst (main Reference.SentenceTransformer Reference.token_sort_ratio
            Reference.faiss_search Reference.float_str
            Scenarios.two_diagnoses Scenarios.empty_world) = Exits 1.
Proof.
  assert (H : (2 <= List.length Scenarios.two_diagnoses)%nat) by (simpl; lia).
  destruct (initialize_without_catalog Reference.SentenceTransformer
              Reference.token_sort_ratio Reference.faiss_search
              Reference.float_str Scenarios.two_diagnoses
              Scenarios.empty_world eq_refl eq_refl H)
    as (_ & _ & Hmain & _).
  split; [reflexivity|]. split; [reflexivity|].
  split; [exact H|exact Hmain].
Defined.

Lemma first_run_from_catalog_witness :
  codes_txt Reference.fresh_world = Holds Reference.demo_lines
  /\ encode Reference.toy_embedder
       (chunks_of (parse_entries Reference.demo_lines))
     = Ok Scenarios.demo_vectors
  /\ load_assets Reference.SentenceTransformer
       (snd (initialize_system Reference.SentenceTransformer
               Reference.fresh_world))
     = Ok Reference.demo_assets
  /\ fst (main Reference.SentenceTransformer Reference.token_sort_ratio
            Reference.faiss_search Reference.float_str
            Scenarios.two_diagnoses Reference.fresh_world) = Returns tt.
Proof.
  assert (Henc : encode Reference.toy_embedder
                   (chunks_of (parse_entries Reference.demo_lines))
                 = Ok (hd [] Scenarios.demo_vectors
                       :: tl Scenarios.demo_vectors))
    by (vm_compute; reflexivity).
  assert (Hargv : (2 <= List.length Scenarios.two_diagnoses)%nat)
    by (simpl; lia).
  destruct (first_run_from_catalog Reference.SentenceTransformer
              Reference.token_sort_ratio Reference.faiss_search
              Reference.float_str Scenarios.two_diagnoses
              Reference.fresh_world Reference.demo_lines
              Reference.toy_embedder (hd [] Scenarios.demo_vectors)
              (tl Scenarios.demo_vectors)
              eq_refl eq_refl eq_refl eq_refl Henc eq_refl Hargv)
    as (_ & Hload & _ & _ & Hmain & _).
  split; [reflexivity|]. split; [exact Henc|].
  split; [exact Hload|exact Hmain].
Defined.

Lemma keyword_match_needs_code_witness :
  exists c s k,
    extractOne Reference.token_sort_ratio "Cholera due to Vibrio cholera"
      (icd_descs Scenarios.no_codes_assets) 85 = Some (c, s, k)
    /\ item_result Reference.token_sort_ratio Reference.faiss_search
         Reference.float_str Scenarios.no_codes_assets
         "Cholera due to Vibrio cholera"
       = mkResult "Cholera due to Vibrio cholera" None None "Error"
           "Error processing diagnosis: list index out of range" EmptyString.
Proof.
  destruct (extractOne Reference.token_sort_ratio
              "Cholera due to Vibrio cholera"
              (icd_descs Scenarios.no_codes_assets) 85)
    as [[[c s] k]|] eqn:E; [|vm_compute in E; discriminate E].
  exists c, s, k. split; [reflexivity|].
  apply (proj2 (keyword_match_needs_code Reference.token_sort_ratio
                  Reference.faiss_search Reference.float_str
                  Scenarios.no_codes_assets "Cholera due to Vibrio cholera"
                  c s k E)).
  simpl. lia.
Defined.

Lemma semantic_positions_witness :
  extractOne Reference.token_sort_ratio "heart attack"
    (icd_descs Reference.demo_assets) 85 = None
  /\ exists r,
       match_diagnosis Reference.token_sort_ratio Scenarios.wrap_search
         Reference.float_str Reference.demo_assets "heart attack" = Ok r
       /\ matched_icd_code r = Some "A000".
Proof.
  assert (Hex : extractOne Reference.token_sort_ratio "heart attack"
                  (icd_descs Reference.demo_assets) 85 = None)
    by (vm_compute; reflexivity).
  split; [exact Hex|].
  destruct (semantic_positions Reference.token_sort_ratio
              Scenarios.wrap_search Reference.float_str
              Reference.demo_assets "heart attack"
              [Reference.toy_vector "heart attack"]
              [(1 # 2, 3 # 4, 1)] [((-1)%Z, 1%Z, (-4)%Z)]
              ((-1)%Z, 1%Z, (-4)%Z) (1 # 2, 3 # 4, 1)
              Hex eq_refl eq_refl eq_refl eq_refl eq_refl)
    as (Hin & _).
  destruct Hin as (code & desc & r & Hcode & _ & Hr & Hm & _).
  { vm_compute. intuition discriminate. }
  exists r. split; [exact Hr|]. rewrite Hm. f_equal.
  vm_compute in Hcode. injection Hcode as <-. reflexivity.
Defined.

Lemma justification_names_confidence_witness :
  exists r,
    Reference.demo_match "heart attack" = Ok r
    /\ justification r
       = "Semantic match using Sentence-BERT. Distance: 0.685. Confidence: Medium. No direct keyword match found above threshold.".
Proof.
  destruct (Reference.demo_match "heart attack") as [r|e] eqn:Hr;
    [|vm_compute in Hr; discriminate Hr].
  exists r. split; [reflexivity|].
  pose proof (justification_names_confidence Reference.token_sort_ratio
                Reference.faiss_search Reference.float_str
                Reference.demo_assets "heart attack" r Hr) as H.
  remember (extractOne Reference.token_sort_ratio "heart attack"
              (icd_descs Reference.demo_assets) 85) as kr eqn:E in H.
  vm_compute in E. subst kr.
  destruct H as (emb & D & I_ & D0 & Henc & Hs & HD & Hj).
  vm_compute in Henc. injection Henc as <-.
  vm_compute in Hs. injection Hs as <- <-.
  vm_compute in HD. injection HD as <-.
  rewrite Hj. vm_compute in Hr. injection Hr as <-. vm_compute. reflexivity.
Defined.
